(** * scrapy-camoufox download handler: a shallow embedding

    The development follows [scrapy_camoufox/handler.py].  Coroutines are
    embedded as functions that take the answers of the browser engine (the
    outcome of every awaited engine call, and the page events delivered while
    the coroutine is suspended) as explicit arguments and thread the mutable
    objects they touch ([request.meta], the pages, the pool) as state.

    Embedded: [Config.from_settings], [Download], the pool
    ([_maybe_launch_browser], [_create_browser_context], [_create_page] and
    the close callbacks), the route handler of [_make_request_handler],
    [_get_response_and_download], [_set_redirect_meta], and the fetch
    ([_download_request], [_download_request_with_retry],
    [_download_request_with_page] and the helpers they call).

    Left out: logging, the statistics sink and the wall-clock latency
    written to [request.meta], which are observability only. *)

From Stdlib Require Import ZArith Lia Bool Ascii.
From stdpp Require Import base option list gmap strings.

Local Open Scope string_scope.
Local Open Scope Z_scope.
Local Open Scope list_scope.
Set Warnings "-register-all".

(** ** Python values used by the handler *)

(** The exception classes the handler distinguishes.  [TargetClosedError] is
    a subclass of playwright's [Error] (imported as [PlaywrightError]); all of
    them are subclasses of [Exception]. *)
Inductive exn : Type :=
| TargetClosedError (message : string)
| PlaywrightError (message : string)
| AttributeError (message : string)
| UnicodeDecodeError (message : string)
| RuntimeError (message : string)
| OtherException (message : string).

(** [isinstance(e, TargetClosedError)] *)
Definition is_TargetClosedError (e : exn) : bool :=
  match e with TargetClosedError _ => true | _ => false end.

(** [isinstance(e, PlaywrightError)] *)
Definition is_PlaywrightError (e : exn) : bool :=
  match e with TargetClosedError _ | PlaywrightError _ => true | _ => false end.

(** [err.message] *)
Definition message_of (e : exn) : string :=
  match e with
  | TargetClosedError m | PlaywrightError m | AttributeError m
  | UnicodeDecodeError m | RuntimeError m | OtherException m => m
  end.

(** How an awaited coroutine ends: it returns, it raises, or it stays
    suspended because the awaited event is never delivered. *)
Inductive outcome (A : Type) : Type :=
| Return (a : A)
| Raise (e : exn)
| Pending.
Arguments Return {A} a.
Arguments Raise {A} e.
Arguments Pending {A}.

(** [needle in hay] on [str]. *)
Fixpoint contains (needle hay : string) : bool :=
  if String.prefix needle hay then true
  else match hay with
       | EmptyString => false
       | String _ hay' => contains needle hay'
       end.

(** [s.rstrip(c)] for a single character [c]. *)
Fixpoint rstrip (c : ascii) (s : string) : string :=
  match s with
  | EmptyString => EmptyString
  | String a s' =>
      match rstrip c s' with
      | EmptyString => if Ascii.eqb a c then EmptyString else String a EmptyString
      | t => String a t
      end
  end.

(** [str.upper] on ASCII letters (method names are ASCII tokens). *)
Definition upper_ascii (a : ascii) : ascii :=
  let n := nat_of_ascii a in
  if ((97 <=? n) && (n <=? 122))%nat then ascii_of_nat (n - 32) else a.

Fixpoint upper (s : string) : string :=
  match s with
  | EmptyString => EmptyString
  | String a s' => String (upper_ascii a) (upper s')
  end.

(** A [dict] of header names and values, as [all_headers()] returns it. *)
Definition header_dict : Type := list (string * string).

(** Values stored in [request.meta]: [MCallable] is a callable object known
    by its name, [MPage] a reference to a page object. *)
Inductive meta_value : Type :=
| MNone
| MBool (b : bool)
| MInt (n : Z)
| MStr (s : string)
| MList (l : list meta_value)
| MDict (d : list (string * meta_value))
| MCallable (name : string)
| MPage (page_id : nat).

(** Python truthiness. *)
Definition truth (v : meta_value) : bool :=
  match v with
  | MNone => false
  | MBool b => b
  | MInt n => negb (n =? 0)
  | MStr s => negb (String.eqb s "")
  | MList l => match l with [] => false | _ => true end
  | MDict d => match d with [] => false | _ => true end
  | MCallable _ | MPage _ => true
  end.

(** Truthiness of [d.get(key)], where a missing key gives [None]. *)
Definition truthy (v : option meta_value) : bool :=
  match v with
  | None => false
  | Some v => truth v
  end.

(** ** Engine objects *)

(** A playwright [Request].  [all_headers] is how
    [await request.all_headers()] ends; [response] is how
    [await request.response()] ends, returning the status of the response
    or [None] when the request got no response; [redirected_from] is the
    backward link of a redirect. *)
Module PlaywrightRequest.
Inductive t : Type := mk {
  url : string;
  method : string;
  is_navigation_request : bool;
  all_headers : outcome header_dict;
  response : outcome (option Z);
  redirected_from : option t
}.
End PlaywrightRequest.

(** A playwright [Response]. [server_ip_address] is what
    [ip_address((await response.server_addr())["ipAddress"])] yields, [None]
    when one of the suppressed [KeyError], [TypeError], [ValueError] is
    raised on the way. *)
Module PlaywrightResponse.
Record t : Type := mk {
  url : string;
  status : Z;
  request : PlaywrightRequest.t;
  all_headers : header_dict;
  security_details : option string;
  server_ip_address : option string
}.
End PlaywrightResponse.

(** ** RedirectChainBuilder: [_set_redirect_meta] *)

(** The local variables of the [while redirected is not None] loop; the two
    lists hold Python values. *)
Record redirect_acc : Type := mk_redirect_acc {
  redirect_times : Z;
  redirect_urls : list meta_value;
  redirect_reasons : list meta_value
}.

(** One run of the loop, entered with [redirected] bound to a request.  The
    awaited [redirected.response()] may raise, which leaves the loop and the
    function. *)
Fixpoint while_redirected (redirected : PlaywrightRequest.t) (acc : redirect_acc)
  : outcome redirect_acc :=
  match redirected with
  | PlaywrightRequest.mk url _ _ _ response redirected_from =>
      match response with
      | Raise ex => Raise ex
      | Pending => Pending
      | Return redirected_response =>
          let reason :=
            match redirected_response with
            | None => MNone
            | Some status => MInt status
            end in
          let acc :=
            {| redirect_times := redirect_times acc + 1;
               redirect_urls := redirect_urls acc ++ [MStr url];
               redirect_reasons := redirect_reasons acc ++ [reason] |} in
          match redirected_from with
          | None => Return acc
          | Some redirected => while_redirected redirected acc
          end
      end
  end.

(** [request.meta] after the call, or the exception the call raises. *)
Definition _set_redirect_meta (meta : gmap string meta_value)
    (response : PlaywrightResponse.t) : outcome (gmap string meta_value) :=
  let init := {| redirect_times := 0; redirect_urls := []; redirect_reasons := [] |} in
  let walked :=
    match PlaywrightRequest.redirected_from (PlaywrightResponse.request response) with
    | None => Return init
    | Some redirected => while_redirected redirected init
    end in
  match walked with
  | Raise ex => Raise ex
  | Pending => Pending
  | Return acc =>
      if redirect_times acc =? 0 then Return meta
      else
        Return
          (<["redirect_reasons" := MList (reverse (redirect_reasons acc))]>
             (<["redirect_urls" := MList (reverse (redirect_urls acc))]>
                (<["redirect_times" := MInt (redirect_times acc)]> meta)))
  end.

(** *** The redirect chain in the words of the specification *)

(** The requests reached by following the redirected-from links, starting
    at [r]: the most recent hop first. *)
Fixpoint hops_backward (r : PlaywrightRequest.t) : list PlaywrightRequest.t :=
  r :: match PlaywrightRequest.redirected_from r with
       | None => []
       | Some r' => hops_backward r'
       end.

(** The hops behind a terminal response, walking backward. *)
Definition redirected_from_links (response : PlaywrightResponse.t)
  : list PlaywrightRequest.t :=
  match PlaywrightRequest.redirected_from (PlaywrightResponse.request response) with
  | None => []
  | Some r => hops_backward r
  end.

(** The fetch metadata exposed for a chain of (url, status-or-unknown)
    pairs in chronological order: the count, the urls and the reasons when
    there is at least one hop, nothing otherwise. *)
Definition redirect_meta_spec (meta : gmap string meta_value)
    (chain : list (string * option Z)) : gmap string meta_value :=
  match chain with
  | [] => meta
  | _ :: _ =>
      <["redirect_reasons" :=
          MList ((fun hop => match snd hop with
                             | Some status => MInt status
                             | None => MNone
                             end) <$> chain)]>
        (<["redirect_urls" := MList ((fun hop => MStr (fst hop)) <$> chain)]>
           (<["redirect_times" := MInt (Z.of_nat (length chain))]> meta))
  end.

(** A request for [url] that was redirected from [from]; [status] is the
    status of its response, if it got one. *)
Definition hop (url : string) (status : option Z)
    (from : option PlaywrightRequest.t) : PlaywrightRequest.t :=
  PlaywrightRequest.mk url "GET" true (Return []) (Return status) from.

(** ** Scrapy's [Headers]

    A caseless dictionary from header names to lists of values.  Names are
    normalised with [str.title] before they are used as keys (ASCII letters
    here); the encoding of names and values to [bytes] is the identity on
    Rocq strings. *)

Definition is_upper_ascii (a : ascii) : bool :=
  let n := nat_of_ascii a in ((65 <=? n) && (n <=? 90))%nat.

Definition is_lower_ascii (a : ascii) : bool :=
  let n := nat_of_ascii a in ((97 <=? n) && (n <=? 122))%nat.

Definition lower_ascii (a : ascii) : ascii :=
  if is_upper_ascii a then ascii_of_nat (nat_of_ascii a + 32) else a.

(** [s.title()]: a letter is upper-cased when the character before it is
    not a letter, and lower-cased otherwise. *)
Fixpoint title_from (previous_is_cased : bool) (s : string) : string :=
  match s with
  | EmptyString => EmptyString
  | String a s' =>
      let cased := is_upper_ascii a || is_lower_ascii a in
      let a' := if cased
                then (if previous_is_cased then lower_ascii a else upper_ascii a)
                else a in
      String a' (title_from cased s')
  end.

Definition normkey (key : string) : string := title_from false key.

Definition Headers : Type := list (string * list string).

(** [dict.__setitem__] on an already normalised key: an existing key keeps
    its position. *)
Fixpoint dict_set {V : Type} (key : string) (value : V) (d : list (string * V))
  : list (string * V) :=
  match d with
  | [] => [(key, value)]
  | (k, v) :: d' =>
      if String.eqb k key then (k, value) :: d' else (k, v) :: dict_set key value d'
  end.

Fixpoint dict_get {V : Type} (key : string) (d : list (string * V)) : option V :=
  match d with
  | [] => None
  | (k, v) :: d' => if String.eqb k key then Some v else dict_get key d'
  end.

Definition dict_pop {V : Type} (key : string) (d : list (string * V))
  : list (string * V) :=
  filter (fun kv => negb (String.eqb (fst kv) key)) d.

(** [Headers.update(seq)]: the values of names that normalise to the same
    key are gathered, then every gathered key is assigned. *)
Definition Headers_update (h : Headers) (seq : header_dict) : Headers :=
  let headers_dict :=
    fold_left
      (fun acc kv =>
         let k := normkey (fst kv) in
         dict_set k (default [] (dict_get k acc) ++ [snd kv]) acc)
      seq [] in
  fold_left (fun acc kv => dict_set (fst kv) (snd kv) acc) headers_dict h.

(** [Headers(seq)] and [Headers()] *)
Definition Headers_new (seq : header_dict) : Headers := Headers_update [] seq.

(** [headers.pop(name, None)] *)
Definition Headers_pop (name : string) (h : Headers) : Headers :=
  dict_pop (normkey name) h.

(** ** InterceptionReconciler: the route handler of [_make_request_handler] *)

(** The keyword arguments gathered for [route.continue_]. *)
Record overrides : Type := mk_overrides {
  override_method : option string;
  override_post_data : option string
}.

Definition no_overrides : overrides :=
  {| override_method := None; override_post_data := None |}.

(** The engine calls a handler invocation makes, in order. *)
Inductive route_call : Type :=
| call_all_headers
| call_abort
| call_continue (kwargs : overrides).

(** What the engine answers for one intercepted sub-request. *)
Module Route.
Record t : Type := mk {
  abort_result : outcome unit;
  continue_result : outcome unit
}.
End Route.

(** The per-fetch objects the closure shares with its caller:
    the [asyncio.Event] and the [request.headers] object. *)
Record reconciler_state : Type := mk_reconciler_state {
  initial_request_done : bool;
  headers : Headers
}.

Section RequestHandler.

(** [bytes.decode(encoding)] of the Python runtime. *)
Variable decode : list Byte.byte -> string -> exn + string.
(** [_is_safe_close_error] of [scrapy_camoufox._utils]. *)
Variable _is_safe_close_error : exn -> bool.
(** [self.abort_request], awaited through [_maybe_await]. *)
Variable abort_request : option (PlaywrightRequest.t -> outcome bool).
(** The variables the closure captures from the Scrapy request. *)
Variables (method url : string) (body : list Byte.byte) (encoding : string).

(** [if self.abort_request: should_abort = await ...] *)
Definition should_abort (playwright_request : PlaywrightRequest.t) : outcome bool :=
  match abort_request with
  | None => Return false
  | Some predicate => predicate playwright_request
  end.

(** The condition under which a sub-request is taken for the initial one. *)
Definition is_initial_request (st : reconciler_state)
    (playwright_request : PlaywrightRequest.t) : bool :=
  String.eqb (rstrip "/" (PlaywrightRequest.url playwright_request)) (rstrip "/" url)
  && PlaywrightRequest.is_navigation_request playwright_request
  && negb (initial_request_done st).

(** [route.continue_] with the gathered overrides, inside its [try]: a
    [PlaywrightError] that is a safe close error is logged and ignored. *)
Definition continue_ (route : Route.t) : outcome unit :=
  match Route.continue_result route with
  | Raise ex =>
      if is_PlaywrightError ex && _is_safe_close_error ex then Return tt else Raise ex
  | r => r
  end.

(** [if body: overrides["post_data"] = body.decode(encoding)]: the declared
    body, decoded with the declared encoding. *)
Definition declared_payload : exn + option string :=
  match body with
  | [] => inr None
  | _ :: _ =>
      match decode body encoding with
      | inl ex => inl ex
      | inr post_data => inr (Some post_data)
      end
  end.

Definition _request_handler (st : reconciler_state) (route : Route.t)
    (playwright_request : PlaywrightRequest.t)
  : reconciler_state * list route_call * outcome unit :=
  match should_abort playwright_request with
  | Raise ex => (st, [], Raise ex)
  | Pending => (st, [], Pending)
  | Return true => (st, [call_abort], Route.abort_result route)
  | Return false =>
      (* [final_headers = await playwright_request.all_headers()] is outside
         the [try]: its exception leaves the handler *)
      match PlaywrightRequest.all_headers playwright_request with
      | Raise ex => (st, [call_all_headers], Raise ex)
      | Pending => (st, [call_all_headers], Pending)
      | Return final_headers =>
          if is_initial_request st playwright_request then
            let st := {| initial_request_done := true; headers := headers st |} in
            let override_method :=
              if negb (String.eqb (upper method)
                         (upper (PlaywrightRequest.method playwright_request)))
              then Some method else None in
            match declared_payload with
            | inl ex => (st, [call_all_headers], Raise ex)
            | inr post_data =>
                let st := {| initial_request_done := true;
                             headers := Headers_update [] final_headers |} in
                (st, [call_all_headers;
                      call_continue (mk_overrides override_method post_data)],
                 continue_ route)
            end
          else
            (st, [call_all_headers; call_continue no_overrides], continue_ route)
      end
  end.

(** The handler invocations of one fetch, in the order in which they reach
    the test of [initial_request_done]; the test and [set()] are not
    separated by an [await], so invocations do not interleave there.  An
    invocation that ends before the test does not touch the state, so its
    place in the list does not matter.  An exception raised by one
    invocation does not stop the others. *)
Fixpoint handle_all (st : reconciler_state)
    (intercepted : list (Route.t * PlaywrightRequest.t))
  : reconciler_state * list (list route_call * outcome unit) :=
  match intercepted with
  | [] => (st, [])
  | (route, playwright_request) :: rest =>
      let '(st, calls, result) := _request_handler st route playwright_request in
      let '(st', results) := handle_all st rest in
      (st', (calls, result) :: results)
  end.

(** *** The protocol in the words of the specification *)

(** Step 2: the abort predicate lets the sub-request through when none is
    configured or when it returns false. *)
Definition let_through (playwright_request : PlaywrightRequest.t) : bool :=
  match abort_request with
  | None => true
  | Some predicate =>
      match predicate playwright_request with
      | Return false => true
      | _ => false
      end
  end.

(** Step 3: the resolved headers of the sub-request are obtained. *)
Definition headers_resolved (playwright_request : PlaywrightRequest.t) : bool :=
  match PlaywrightRequest.all_headers playwright_request with
  | Return _ => true
  | _ => false
  end.

(** Step 4: the sub-request is the page's top-level navigation to the
    request's URL, trailing slashes ignored. *)
Definition navigates_to_url (playwright_request : PlaywrightRequest.t) : bool :=
  String.eqb (rstrip "/" (PlaywrightRequest.url playwright_request)) (rstrip "/" url)
  && PlaywrightRequest.is_navigation_request playwright_request.

(** A sub-request that can be the matching one. *)
Definition eligible (playwright_request : PlaywrightRequest.t) : bool :=
  let_through playwright_request
  && headers_resolved playwright_request
  && navigates_to_url playwright_request.

(** Step 5: how the handler ends once it has asked the engine to continue
    the sub-request.  A failure of the continuation that is a safe close
    error is ignored; any other failure is raised. *)
Definition continued (route : Route.t) : outcome unit :=
  match Route.continue_result route with
  | Return _ => Return tt
  | Pending => Pending
  | Raise ex =>
      match ex with
      | TargetClosedError _ | PlaywrightError _ =>
          if _is_safe_close_error ex then Return tt else Raise ex
      | _ => Raise ex
      end
  end.

(** What is done with a sub-request other than the matching one: the engine
    calls made for it and how the handler ends.  It is aborted and nothing
    else when the predicate returns true; it is continued with no overrides
    when the predicate lets it through and its headers are resolved; it is
    neither aborted nor continued when the predicate, or the resolution of
    the headers, raises or does not return. *)
Definition other_result (intercepted : Route.t * PlaywrightRequest.t)
  : list route_call * outcome unit :=
  let verdict :=
    match abort_request with
    | None => Return false
    | Some predicate => predicate (snd intercepted)
    end in
  match verdict with
  | Return true => ([call_abort], Route.abort_result (fst intercepted))
  | Raise ex => ([], Raise ex)
  | Pending => ([], Pending)
  | Return false =>
      match PlaywrightRequest.all_headers (snd intercepted) with
      | Return _ =>
          ([call_all_headers; call_continue no_overrides], continued (fst intercepted))
      | Raise ex => ([call_all_headers], Raise ex)
      | Pending => ([call_all_headers], Pending)
      end
  end.

End RequestHandler.

(** ** Configuration *)

(** Keyword arguments and option dictionaries. *)
Definition kwargs : Type := list (string * meta_value).

(** The Scrapy settings [Config.from_settings] reads, each with the type its
    getter returns; a timeout is a number of milliseconds that is only handed
    on to the engine. *)
Module Settings.
Record t : Type := mk {
  CAMOUFOX_LAUNCH_OPTIONS : kwargs;
  CAMOUFOX_MAX_PAGES_PER_CONTEXT : Z;
  CAMOUFOX_MAX_CONTEXTS : Z;
  CAMOUFOX_CONTEXTS : list (string * kwargs);
  CAMOUFOX_DEFAULT_NAVIGATION_TIMEOUT : option Z;
  CAMOUFOX_RESTART_DISCONNECTED_BROWSER : bool;
  _PLAYWRIGHT_THREADED_LOOP : bool;
  CONCURRENT_REQUESTS : Z;
  platform_is_windows : bool
}.
End Settings.

Module Config.
Record t : Type := mk {
  launch_options : kwargs;
  max_pages_per_context : Z;
  max_contexts : option Z;
  startup_context_kwargs : list (string * kwargs);
  navigation_timeout : option Z;
  restart_disconnected_browser : bool;
  target_closed_max_retries : Z;
  use_threaded_loop : bool;
  browser_type_name : string
}.

(** The defaults of the dataclass fields that [from_settings] does not set. *)
Definition default_target_closed_max_retries : Z := 3.
Definition default_browser_type_name : string := "firefox".

Definition from_settings (settings : Settings.t) : t :=
  let cfg :=
    {| launch_options := Settings.CAMOUFOX_LAUNCH_OPTIONS settings;
       max_pages_per_context := Settings.CAMOUFOX_MAX_PAGES_PER_CONTEXT settings;
       max_contexts :=
         if Settings.CAMOUFOX_MAX_CONTEXTS settings =? 0 then None
         else Some (Settings.CAMOUFOX_MAX_CONTEXTS settings);
       startup_context_kwargs := Settings.CAMOUFOX_CONTEXTS settings;
       navigation_timeout := Settings.CAMOUFOX_DEFAULT_NAVIGATION_TIMEOUT settings;
       restart_disconnected_browser :=
         Settings.CAMOUFOX_RESTART_DISCONNECTED_BROWSER settings;
       target_closed_max_retries := default_target_closed_max_retries;
       use_threaded_loop :=
         Settings.platform_is_windows settings
         || Settings._PLAYWRIGHT_THREADED_LOOP settings;
       browser_type_name := default_browser_type_name |} in
  if max_pages_per_context cfg =? 0
  then {| launch_options := launch_options cfg;
          max_pages_per_context := Settings.CONCURRENT_REQUESTS settings;
          max_contexts := max_contexts cfg;
          startup_context_kwargs := startup_context_kwargs cfg;
          navigation_timeout := navigation_timeout cfg;
          restart_disconnected_browser := restart_disconnected_browser cfg;
          target_closed_max_retries := target_closed_max_retries cfg;
          use_threaded_loop := use_threaded_loop cfg;
          browser_type_name := browser_type_name cfg |}
  else cfg.
End Config.

(** ** The [Download] dataclass *)

Module Download.
Record t : Type := mk {
  body : list Byte.byte;
  url : string;
  suggested_filename : string;
  exception : option exn;
  response_status : Z;
  headers : header_dict
}.

(** [Download()] *)
Definition new : t :=
  {| body := []; url := ""; suggested_filename := ""; exception := None;
     response_status := 200; headers := [] |}.

Definition __bool__ (d : t) : bool :=
  match body d with [] => false | _ :: _ => true end
  || match exception d with None => false | Some _ => true end.
End Download.

(** ** Pages and their listeners *)

(** The functions the handler subscribes to page events.  The two closures
    of [_get_response_and_download] are new objects at every call; [call] is
    their identity. *)
Inductive listener : Type :=
| close_page_callback (context_name : string)
| _log_request (context_name : string)
| _log_response (context_name : string)
| _increment_request_stats
| _increment_response_stats
| _handle_download (call : nat)
| _handle_response (call : nat)
| custom_handler (name : string).

#[global] Instance listener_eq_dec : EqDecision listener.
Proof. solve_decision. Defined.

Module Page.
Record t : Type := mk {
  url : string;
  is_closed : bool;
  listeners : list (string * listener);
  routes : list string;
  default_navigation_timeout : option Z
}.

Definition with_listeners (l : list (string * listener)) (page : t) : t :=
  {| url := url page; is_closed := is_closed page; listeners := l;
     routes := routes page;
     default_navigation_timeout := default_navigation_timeout page |}.

(** [page.on(event, f)]: the listeners of an event are a dictionary keyed by
    the function, so a function already subscribed is not added twice. *)
Definition on (event : string) (f : listener) (page : t) : t :=
  if decide ((event, f) ∈ listeners page) then page
  else with_listeners (listeners page ++ [(event, f)]) page.

(** [page.remove_listener(event, f)] *)
Definition remove_listener (event : string) (f : listener) (page : t) : t :=
  with_listeners (filter (fun l => l ≠ (event, f)) (listeners page)) page.

Definition with_url (u : string) (page : t) : t :=
  {| url := u; is_closed := is_closed page; listeners := listeners page;
     routes := routes page;
     default_navigation_timeout := default_navigation_timeout page |}.

Definition with_routes (r : list string) (page : t) : t :=
  {| url := url page; is_closed := is_closed page; listeners := listeners page;
     routes := r;
     default_navigation_timeout := default_navigation_timeout page |}.

Definition closed (page : t) : t :=
  {| url := url page; is_closed := true; listeners := listeners page;
     routes := routes page;
     default_navigation_timeout := default_navigation_timeout page |}.

Definition set_default_navigation_timeout (timeout : Z) (page : t) : t :=
  {| url := url page; is_closed := is_closed page; listeners := listeners page;
     routes := routes page;
     default_navigation_timeout := Some timeout |}.
End Page.

(** ** DownloadNavigationArbiter: [_get_response_and_download] *)

(** What [_handle_download] finds once the engine has finished the download:
    [dwnld.failure()] gives a message, one of the awaited calls raises, or
    the file is read. *)
Inductive download_completion : Type :=
| download_failed (url failure : string)
| download_raised (ex : exn)
| download_saved (body : list Byte.byte) (url suggested_filename : string).

(** The steps of the two listeners, one per stretch of code between two
    [await]s: the steps of different notifications interleave. *)
Inductive page_event : Type :=
| response_observed (status : Z)
| response_headers_read (headers : header_dict)
| download_begins
| download_ends (completion : download_completion).

(** The variables the two closures share with the coroutine. *)
Record download_watch : Type := mk_download_watch {
  download : Download.t;
  download_started : bool;
  download_ready : bool
}.

Definition deliver (w : download_watch) (event : page_event) : download_watch :=
  let d := download w in
  match event with
  | response_observed status =>
      {| download :=
           {| Download.body := Download.body d; Download.url := Download.url d;
              Download.suggested_filename := Download.suggested_filename d;
              Download.exception := Download.exception d;
              Download.response_status := status;
              Download.headers := Download.headers d |};
         download_started := download_started w;
         download_ready := download_ready w |}
  | response_headers_read headers =>
      {| download :=
           {| Download.body := Download.body d; Download.url := Download.url d;
              Download.suggested_filename := Download.suggested_filename d;
              Download.exception := Download.exception d;
              Download.response_status := Download.response_status d;
              Download.headers := headers |};
         download_started := true;
         download_ready := download_ready w |}
  | download_begins =>
      {| download := d; download_started := true; download_ready := download_ready w |}
  | download_ends completion =>
      {| download :=
           match completion with
           | download_failed url failure =>
               {| Download.body := Download.body d; Download.url := Download.url d;
                  Download.suggested_filename := Download.suggested_filename d;
                  Download.exception :=
                    Some (RuntimeError ("Failed to download " +:+ url +:+ ": " +:+ failure));
                  Download.response_status := Download.response_status d;
                  Download.headers := Download.headers d |}
           | download_raised ex =>
               {| Download.body := Download.body d; Download.url := Download.url d;
                  Download.suggested_filename := Download.suggested_filename d;
                  Download.exception := Some ex;
                  Download.response_status := Download.response_status d;
                  Download.headers := Download.headers d |}
           | download_saved body url suggested_filename =>
               {| Download.body := body; Download.url := url;
                  Download.suggested_filename := suggested_filename;
                  Download.exception := Download.exception d;
                  Download.response_status := Download.response_status d;
                  Download.headers := Download.headers d |}
           end;
         download_started := download_started w;
         download_ready := true |}
  end.

(** [download = Download()] and the two [asyncio.Event()]s. *)
Definition new_watch : download_watch :=
  {| download := Download.new; download_started := false; download_ready := false |}.

(** [await event.wait()]: returns at once when the event is set, and
    otherwise lets the listeners run until one of them sets it.  [None] when
    no delivered step sets it. *)
Fixpoint wait_until (is_set : download_watch -> bool) (w : download_watch)
    (events : list page_event) : option (download_watch * list page_event) :=
  if is_set w then Some (w, events)
  else match events with
       | [] => None
       | event :: events => wait_until is_set (deliver w event) events
       end.

(** What the engine does during one navigation. *)
Module Navigation.
Record t : Type := mk {
  closures : nat;
  events_during_goto : list page_event;
  goto_result : outcome (option PlaywrightResponse.t);
  url_after_goto : string;
  events_after_goto : list page_event
}.
End Navigation.

(** The test of the [except PlaywrightError] clause. *)
Definition is_download_signal (cfg : Config.t) (err : exn) : bool :=
  contains (Config.browser_type_name cfg) "firefox"
  && contains "Download is starting" (message_of err).

(** [page_goto_kwargs = request.meta.get(...) or {}; page_goto_kwargs.pop("url", None)] *)
Definition pop_url_of_goto_kwargs (meta : gmap string meta_value)
  : exn + gmap string meta_value :=
  match meta !! "camoufox_page_goto_kwargs" with
  | Some (MDict (item :: items)) =>
      inr (<["camoufox_page_goto_kwargs" :=
               MDict (filter (fun kv => negb (String.eqb (fst kv) "url")) (item :: items))]> meta)
  | Some (MList (_ :: _)) => inl (OtherException "TypeError")
  | v => if truthy v then inl (AttributeError "pop") else inr meta
  end.

Definition present (d : Download.t) : option Download.t :=
  if Download.__bool__ d then Some d else None.

Definition _get_response_and_download (cfg : Config.t)
    (meta : gmap string meta_value) (page : Page.t) (nav : Navigation.t)
  : gmap string meta_value * Page.t
    * outcome (option PlaywrightResponse.t * option Download.t) :=
  match pop_url_of_goto_kwargs meta with
  | inl ex => (meta, page, Raise ex)
  | inr meta =>
      let on_download := _handle_download (Navigation.closures nav) in
      let on_response := _handle_response (Navigation.closures nav) in
      let page := Page.on "response" on_response (Page.on "download" on_download page) in
      let finally (page : Page.t) :=
        Page.remove_listener "response" on_response
          (Page.remove_listener "download" on_download page) in
      let w := fold_left deliver (Navigation.events_during_goto nav) new_watch in
      match Navigation.goto_result nav with
      | Pending => (meta, page, Pending)
      | Return response =>
          let page := Page.with_url (Navigation.url_after_goto nav) page in
          (meta, finally page, Return (response, present (download w)))
      | Raise err =>
          let page := Page.with_url (Navigation.url_after_goto nav) page in
          if negb (is_PlaywrightError err) || negb (is_download_signal cfg err)
          then (meta, finally page, Raise err)
          else
            match wait_until download_started w (Navigation.events_after_goto nav) with
            | None => (meta, page, Pending)
            | Some (w, events) =>
                if Download.response_status (download w) =? 204
                then (meta, finally page, Raise err)
                else
                  match wait_until download_ready w events with
                  | None => (meta, page, Pending)
                  | Some (w, _) =>
                      (meta, finally page, Return (None, present (download w)))
                  end
            end
      end
  end.

(** ** PoolManager *)

(** [asyncio.Semaphore]: the number of free slots.  [acquire] is [None] when
    the caller has to wait for a [release]. *)
Module Semaphore.
Record t : Type := mk { value : Z }.

Definition new (v : Z) : exn + t :=
  if v <? 0 then inl (OtherException "ValueError") else inr (mk v).

Definition acquire (s : t) : option t :=
  if 0 <? value s then Some (mk (value s - 1)) else None.

Definition release (s : t) : t := mk (value s + 1).
End Semaphore.

Inductive context_listener : Type :=
| close_browser_context_callback (name : string) (persistent : bool).

Module BrowserContext.
Record t : Type := mk {
  id : nat;
  listeners : list (string * context_listener);
  default_navigation_timeout : option Z
}.
End BrowserContext.

Module BrowserContextWrapper.
Record t : Type := mk {
  context : BrowserContext.t;
  semaphore : Semaphore.t;
  persistent : bool
}.
End BrowserContextWrapper.

(** What [AsyncNewBrowser] was asked for. *)
Module Browser.
Record t : Type := mk {
  launch_options : kwargs;
  persistent_context : bool
}.
End Browser.

Definition DEFAULT_CONTEXT_NAME : string := "default".
Definition PERSISTENT_CONTEXT_PATH_KEY : string := "user_data_dir".

(** The attributes of the download handler that the pool uses; an attribute
    that [hasattr] may find missing is an [option]. *)
Module Handler.
Record t : Type := mk {
  config : Config.t;
  browser : option Browser.t;
  context_semaphore : option Semaphore.t;
  context_wrappers : gmap string BrowserContextWrapper.t
}.

Definition with_browser (b : option Browser.t) (self : t) : t :=
  {| config := config self; browser := b;
     context_semaphore := context_semaphore self;
     context_wrappers := context_wrappers self |}.

Definition with_context_semaphore (s : option Semaphore.t) (self : t) : t :=
  {| config := config self; browser := browser self;
     context_semaphore := s;
     context_wrappers := context_wrappers self |}.

Definition with_context_wrappers (m : gmap string BrowserContextWrapper.t) (self : t) : t :=
  {| config := config self; browser := browser self;
     context_semaphore := context_semaphore self;
     context_wrappers := m |}.

(** The pool attributes set by [__init__]. *)
Definition new (cfg : Config.t) : exn + t :=
  match Config.max_contexts cfg with
  | None => inr (mk cfg None None ∅)
  | Some n =>
      if n =? 0 then inr (mk cfg None None ∅)
      else match Semaphore.new n with
           | inl ex => inl ex
           | inr s => inr (mk cfg None (Some s) ∅)
           end
  end.
End Handler.

(** [_maybe_launch_browser]: launches the browser unless the handler has one;
    the coroutine has no [return], so its value is [None]. *)
Definition _maybe_launch_browser (self : Handler.t) (persistent : bool)
    (launch : outcome unit) : Handler.t * outcome unit :=
  match Handler.browser self with
  | Some _ => (self, Return tt)
  | None =>
      match launch with
      | Return tt =>
          (Handler.with_browser
             (Some {| Browser.launch_options := Config.launch_options (Handler.config self);
                      Browser.persistent_context := persistent |}) self,
           Return tt)
      | other => (self, other)
      end
  end.

(** [context_kwargs.get(PERSISTENT_CONTEXT_PATH_KEY)] is truthy. *)
Definition asks_for_persistent_context (context_kwargs : kwargs) : bool :=
  truthy (dict_get PERSISTENT_CONTEXT_PATH_KEY context_kwargs).

(** [context_kwargs or {}], for the value the caller passes: a dictionary
    or [None]; any other truthy value has no [get]. *)
Definition kwargs_or_empty (context_kwargs : option meta_value) : exn + kwargs :=
  match context_kwargs with
  | Some (MDict d) => inr d
  | v => if truthy v then inl (AttributeError "get") else inr []
  end.

Definition _create_browser_context (self : Handler.t) (name : string)
    (context_kwargs : option meta_value) (launch : outcome unit)
    (new_context : outcome nat)
  : Handler.t * outcome BrowserContextWrapper.t :=
  let acquired :=
    match Handler.context_semaphore self with
    | None => Some self
    | Some s =>
        match Semaphore.acquire s with
        | None => None
        | Some s => Some (Handler.with_context_semaphore (Some s) self)
        end
    end in
  match acquired with
  | None => (self, Pending)
  | Some self =>
    match kwargs_or_empty context_kwargs with
    | inl ex => (self, Raise ex)
    | inr context_kwargs =>
      (* [context] holds [None] or a context object *)
      let '(self, persistent, context) :=
        if asks_for_persistent_context context_kwargs then
          match _maybe_launch_browser self true launch with
          | (self, Return tt) => (self, true, Return (None : option BrowserContext.t))
          | (self, Raise ex) => (self, true, Raise ex)
          | (self, Pending) => (self, true, Pending)
          end
        else
          match _maybe_launch_browser self false launch with
          | (self, Return tt) =>
              (self, false,
               match new_context with
               | Return id =>
                   Return (Some {| BrowserContext.id := id;
                                   BrowserContext.listeners := [];
                                   BrowserContext.default_navigation_timeout := None |})
               | Raise ex => Raise ex
               | Pending => Pending
               end)
          | (self, Raise ex) => (self, false, Raise ex)
          | (self, Pending) => (self, false, Pending)
          end in
      match context with
      | Raise ex => (self, Raise ex)
      | Pending => (self, Pending)
      | Return None =>
          (* [context.on("close", ...)] on [None] *)
          (self, Raise (AttributeError "'NoneType' object has no attribute 'on'"))
      | Return (Some context) =>
          let context :=
            {| BrowserContext.id := BrowserContext.id context;
               BrowserContext.listeners :=
                 BrowserContext.listeners context
                 ++ [("close", close_browser_context_callback name persistent)];
               BrowserContext.default_navigation_timeout :=
                 match Config.navigation_timeout (Handler.config self) with
                 | Some timeout => Some timeout
                 | None => BrowserContext.default_navigation_timeout context
                 end |} in
          match Semaphore.new (Config.max_pages_per_context (Handler.config self)) with
          | inl ex => (self, Raise ex)
          | inr semaphore =>
              let wrapper :=
                {| BrowserContextWrapper.context := context;
                   BrowserContextWrapper.semaphore := semaphore;
                   BrowserContextWrapper.persistent := persistent |} in
              (Handler.with_context_wrappers
                 (<[name := wrapper]> (Handler.context_wrappers self)) self,
               Return wrapper)
          end
      end
    end
  end.

(** The closure made by [_make_close_page_callback]. *)
Definition run_close_page_callback (context_name : string) (self : Handler.t) : Handler.t :=
  match Handler.context_wrappers self !! context_name with
  | Some wrapper =>
      Handler.with_context_wrappers
        (<[context_name :=
             {| BrowserContextWrapper.context := BrowserContextWrapper.context wrapper;
                BrowserContextWrapper.semaphore :=
                  Semaphore.release (BrowserContextWrapper.semaphore wrapper);
                BrowserContextWrapper.persistent :=
                  BrowserContextWrapper.persistent wrapper |}]>
           (Handler.context_wrappers self)) self
  | None => self
  end.

(** The closure made by [_make_close_browser_context_callback]. *)
Definition run_close_browser_context_callback (name : string) (self : Handler.t)
  : Handler.t :=
  let self :=
    Handler.with_context_wrappers (delete name (Handler.context_wrappers self)) self in
  match Handler.context_semaphore self with
  | Some s => Handler.with_context_semaphore (Some (Semaphore.release s)) self
  | None => self
  end.

(** What a listener does to the pool when the engine calls it; the loggers,
    the counters and the listeners of the caller leave the pool alone. *)
Definition notify (self : Handler.t) (l : string * listener) : Handler.t :=
  match snd l with
  | close_page_callback context_name => run_close_page_callback context_name self
  | _ => self
  end.

(** The engine emits [event] on a page: the listeners subscribed to it run
    in the order of their subscription. *)
Definition emit (event : string) (page : Page.t) (self : Handler.t) : Handler.t :=
  fold_left notify (filter (fun l => fst l = event) (Page.listeners page)) self.

(** The free slots of the page semaphore of a context, when it is in the pool. *)
Definition free_page_slots (self : Handler.t) (context_name : string) : option Z :=
  (fun wrapper => Semaphore.value (BrowserContextWrapper.semaphore wrapper))
    <$> (Handler.context_wrappers self !! context_name).

(** ** The fetch pipeline *)

Module Request.
Record t : Type := mk {
  url : string;
  method : string;
  headers : Headers;
  body : list Byte.byte;
  encoding : string;
  meta : gmap string meta_value
}.

Definition with_meta (m : gmap string meta_value) (request : t) : t :=
  {| url := url request; method := method request; headers := headers request;
     body := body request; encoding := encoding request; meta := m |}.
End Request.

(** The objects a fetch works on: the download handler, the Scrapy request,
    the page objects by identity (a page is shared by the engine, the
    coroutine and [request.meta]), and the names of the spider's attributes. *)
Record World : Type := mk_World {
  handler : Handler.t;
  request : Request.t;
  pages : gmap nat Page.t;
  spider : list string
}.

Definition with_handler (h : Handler.t) (w : World) : World :=
  {| handler := h; request := request w; pages := pages w; spider := spider w |}.

Definition with_request_meta (m : gmap string meta_value) (w : World) : World :=
  {| handler := handler w; request := Request.with_meta m (request w);
     pages := pages w; spider := spider w |}.

Definition with_pages (p : gmap nat Page.t) (w : World) : World :=
  {| handler := handler w; request := request w; pages := p; spider := spider w |}.

Definition meta_get (w : World) (key : string) : option meta_value :=
  Request.meta (request w) !! key.

Definition meta_set (key : string) (v : meta_value) (w : World) : World :=
  with_request_meta (<[key := v]> (Request.meta (request w))) w.

Definition update_page (page_id : nat) (f : Page.t -> Page.t) (w : World) : World :=
  with_pages (alter f page_id (pages w)) w.

(** [page.is_closed()] of the page object [page_id]. *)
Definition page_is_closed (w : World) (page_id : nat) : bool :=
  match pages w !! page_id with
  | Some page => Page.is_closed page
  | None => true
  end.

(** A coroutine of the handler: it changes the world and returns, raises or
    stays suspended. *)
Definition coroutine (A : Type) : Type := World -> World * outcome A.

Definition ret {A : Type} (a : A) : coroutine A := fun w => (w, Return a).

Definition raise {A : Type} (ex : exn) : coroutine A := fun w => (w, Raise ex).

(** [await] of an engine call whose answer is [answer]. *)
Definition await {A : Type} (answer : outcome A) : coroutine A := fun w => (w, answer).

Definition modify (f : World -> World) : coroutine unit := fun w => (f w, Return tt).

(** A stretch of code given by what it does to the world. *)
Definition step {A : Type} (f : World -> World * outcome A) : coroutine A := f.

#[global] Instance coroutine_ret : MRet coroutine := @ret.

#[global] Instance coroutine_bind : MBind coroutine :=
  fun A B (k : A -> coroutine B) (c : coroutine A) w =>
    match c w with
    | (w, Return a) => k a w
    | (w, Raise ex) => (w, Raise ex)
    | (w, Pending) => (w, Pending)
    end.

(** A coroutine that leaves [self.config] as it is. *)
Definition keeps_config {A : Type} (c : coroutine A) : Prop :=
  forall w, Handler.config (handler (fst (c w))) = Handler.config (handler w).

(** [request.meta.setdefault("camoufox_context", DEFAULT_CONTEXT_NAME)]; a
    context name is a [str], any other value is outside this model. *)
Definition setdefault_context_name : coroutine string :=
  fun w =>
    match meta_get w "camoufox_context" with
    | None => (meta_set "camoufox_context" (MStr DEFAULT_CONTEXT_NAME) w,
               Return DEFAULT_CONTEXT_NAME)
    | Some (MStr name) => (w, Return name)
    | Some _ => (w, Raise (OtherException "the context name is not a str"))
    end.

(** What the engine answers during one run of the pipeline. *)
Inductive page_method_run : Type :=
| not_a_page_method
| unknown_method
| method_call (result wait_for_load_state : outcome unit).

Module Attempt.
Record t : Type := mk {
  launch : outcome unit;
  new_context : outcome nat;
  new_page : outcome nat;
  unroute : outcome unit;
  route : outcome unit;
  page_init_callback : outcome unit;
  navigation : Navigation.t;
  page_methods : list page_method_run;
  page_content : outcome string;
  close : outcome unit;
  close_after_failure : outcome unit
}.
End Attempt.

(** The page object the engine hands out for [context.new_page()], with
    the subscriptions of [_create_page]. *)
Definition new_page_object (self : Handler.t) (context_name : string) : Page.t :=
  let page :=
    {| Page.url := "about:blank"; Page.is_closed := false; Page.listeners := [];
       Page.routes := []; Page.default_navigation_timeout := None |} in
  let page :=
    match Config.navigation_timeout (Handler.config self) with
    | Some timeout => Page.set_default_navigation_timeout timeout page
    | None => page
    end in
  Page.on "response" _increment_response_stats
    (Page.on "request" _increment_request_stats
       (Page.on "response" (_log_response context_name)
          (Page.on "request" (_log_request context_name)
             (Page.on "crash" (close_page_callback context_name)
                (Page.on "close" (close_page_callback context_name) page))))).

Definition _create_page (answers : Attempt.t) : coroutine nat :=
  context_name ← setdefault_context_name ;
  (* async with self.context_launch_lock *)
  ctx_wrapper ←
    step (fun w =>
       match Handler.context_wrappers (handler w) !! context_name with
       | Some ctx_wrapper => (w, Return ctx_wrapper)
       | None =>
           let '(self, result) :=
             _create_browser_context (handler w) context_name
               (meta_get w "camoufox_context_kwargs")
               (Attempt.launch answers) (Attempt.new_context answers) in
           (with_handler self w, result)
       end) ;
  (* await ctx_wrapper.semaphore.acquire() *)
  step (fun w =>
     match Semaphore.acquire (BrowserContextWrapper.semaphore ctx_wrapper) with
     | None => (w, Pending)
     | Some semaphore =>
         let ctx_wrapper :=
           {| BrowserContextWrapper.context := BrowserContextWrapper.context ctx_wrapper;
              BrowserContextWrapper.semaphore := semaphore;
              BrowserContextWrapper.persistent :=
                BrowserContextWrapper.persistent ctx_wrapper |} in
         (with_handler
            (Handler.with_context_wrappers
               (<[context_name := ctx_wrapper]> (Handler.context_wrappers (handler w)))
               (handler w)) w,
          Return tt)
     end) ;;
  page_id ← await (Attempt.new_page answers) ;
  modify (fun w =>
            with_pages (<[page_id := new_page_object (handler w) context_name]> (pages w)) w) ;;
  ret page_id.

(** [await page.close()]: the engine closes the page and emits [close]. *)
Definition page_close (page_id : nat) (answer : outcome unit) : coroutine unit :=
  fun w =>
    match answer with
    | Return tt =>
        match pages w !! page_id with
        | Some page =>
            if Page.is_closed page then (w, Return tt)
            else (with_handler (emit "close" page (handler w))
                    (update_page page_id Page.closed w),
                  Return tt)
        | None => (w, Return tt)
        end
    | other => (w, other)
    end.

(** The engine reports that the page crashed. *)
Definition page_crash (page_id : nat) (w : World) : World :=
  match pages w !! page_id with
  | Some page => with_handler (emit "crash" page (handler w)) w
  | None => w
  end.

(** [_attach_page_event_handlers] *)
Definition attach_one (spider : list string) (page : Page.t)
    (item : string * meta_value) : Page.t :=
  match snd item with
  | MCallable name => Page.on (fst item) (custom_handler name) page
  | MStr name =>
      if decide (name ∈ spider) then Page.on (fst item) (custom_handler name) page
      else page
  | _ => page
  end.

Definition _attach_page_event_handlers (page_id : nat) : coroutine unit :=
  fun w =>
    match meta_get w "camoufox_page_event_handlers" with
    | Some (MDict event_handlers) =>
        (update_page page_id
           (fun page => fold_left (attach_one (spider w)) event_handlers page) w,
         Return tt)
    | v => if truthy v then (w, Raise (AttributeError "items")) else (w, Return tt)
    end.

(** [_maybe_execute_page_init_callback]: what the callback raises is logged. *)
Definition _maybe_execute_page_init_callback (answers : Attempt.t) : coroutine unit :=
  fun w =>
    if truthy (meta_get w "camoufox_page_init_callback") then
      match Attempt.page_init_callback answers with
      | Raise _ => (w, Return tt)
      | other => (w, other)
      end
    else (w, Return tt).

(** [_apply_page_methods]: an entry that is no [PageMethod], or names no
    method of the page, is logged and skipped. *)
Fixpoint _apply_page_methods (runs : list page_method_run) : outcome unit :=
  match runs with
  | [] => Return tt
  | not_a_page_method :: runs | unknown_method :: runs => _apply_page_methods runs
  | method_call result wait_for_load_state :: runs =>
      match result with
      | Return tt =>
          match wait_for_load_state with
          | Return tt => _apply_page_methods runs
          | other => other
          end
      | other => other
      end
  end.

(** The responses handed back to Scrapy: built from the page, or from a
    download. *)
Inductive Response : Type :=
| document_response (url : string) (status : Z) (headers : Headers)
    (body : list Byte.byte) (encoding : string) (ip_address : option string)
| download_response (url : string) (status : Z) (headers : Headers)
    (body : list Byte.byte).

Definition optional_str (v : option string) : meta_value :=
  match v with None => MNone | Some s => MStr s end.

Section Pipeline.

(** [_encode_body] of [scrapy_camoufox._utils]. *)
Variable _encode_body : Headers -> string -> list Byte.byte * string.

Definition get_response_and_download (page_id : nat) (nav : Navigation.t)
  : coroutine (option PlaywrightResponse.t * option Download.t) :=
  fun w =>
    match pages w !! page_id with
    | None => (w, Raise (OtherException "unknown page"))
    | Some page =>
        let '(meta, page, result) :=
          _get_response_and_download (Handler.config (handler w))
            (Request.meta (request w)) page nav in
        (with_pages (<[page_id := page]> (pages w)) (with_request_meta meta w), result)
    end.

(** The first statement of [_download_request_with_page]: the page is made
    available in [request.meta] when the caller asked for it. *)
Definition remember_page (page_id : nat) : coroutine unit :=
  step (fun w =>
     if truthy (meta_get w "camoufox_include_page")
     then (meta_set "camoufox_page" (MPage page_id) w, Return tt)
     else (w, Return tt)).

(** The statements of [_download_request_with_page] that follow the call of
    [_get_response_and_download], whose value is [found]. *)
Definition assemble_response (page_id : nat) (answers : Attempt.t)
    (found : option PlaywrightResponse.t * option Download.t)
  : coroutine Response :=
  let response := fst found in
  let download := snd found in
  (* [headers] stays unbound when there is a download and no response *)
  headers ←
    (match response with
     | Some response =>
         step (fun w =>
                 match _set_redirect_meta (Request.meta (request w)) response with
                 | Return meta => (with_request_meta meta w, Return tt)
                 | Raise ex => (w, Raise ex)
                 | Pending => (w, Pending)
                 end) ;;
         ret (Some (Headers_pop "Content-Encoding"
                      (Headers_new (PlaywrightResponse.all_headers response))))
     | None =>
         ret (match download with
              | None => Some (Headers_new [])
              | Some _ => None
              end)
     end);
  await (_apply_page_methods (Attempt.page_methods answers)) ;;
  body_str ← await (Attempt.page_content answers) ;
  server_ip_address ←
    (match response with
     | Some response =>
         modify (meta_set "camoufox_security_details"
                   (optional_str (PlaywrightResponse.security_details response))) ;;
         ret (PlaywrightResponse.server_ip_address response)
     | None => ret None
     end);
  (match download with
   | Some {| Download.exception := Some ex |} => raise ex
   | _ => ret tt
   end) ;;
  step (fun w =>
     if truthy (meta_get w "camoufox_include_page") then (w, Return tt)
     else page_close page_id (Attempt.close answers) w) ;;
  match download with
  | Some download =>
      modify (meta_set "camoufox_suggested_filename"
                (MStr (Download.suggested_filename download))) ;;
      ret (download_response (Download.url download)
             (Download.response_status download)
             (Headers_pop "Content-Encoding" (Headers_new (Download.headers download)))
             (Download.body download))
  | None =>
      match headers with
      | None => raise (OtherException "UnboundLocalError")
      | Some headers =>
          let encoded := _encode_body headers body_str in
          step (fun w =>
            (w, Return
                  (document_response
                     (match pages w !! page_id with
                      | Some page => Page.url page
                      | None => ""
                      end)
                     (match response with
                      | Some response => PlaywrightResponse.status response
                      | None => 200
                      end)
                     headers (fst encoded) (snd encoded) server_ip_address)))
      end
  end.

Definition _download_request_with_page (page_id : nat) (answers : Attempt.t)
  : coroutine Response :=
  remember_page page_id ;;
  found ← get_response_and_download page_id (Attempt.navigation answers) ;
  assemble_response page_id answers found.

(** [request.meta.get("camoufox_page")] when it is a page that is not closed. *)
Definition retained_page (w : World) : option nat :=
  match meta_get w "camoufox_page" with
  | Some (MPage page_id) =>
      match pages w !! page_id with
      | Some page => if Page.is_closed page then None else Some page_id
      | None => None
      end
  | _ => None
  end.

Definition install_route (page_id : nat) (answers : Attempt.t) : coroutine unit :=
  await (Attempt.unroute answers) ;;
  modify (update_page page_id
            (fun page =>
               Page.with_routes
                 (filter (fun pattern => pattern ≠ "**") (Page.routes page)) page)) ;;
  await (Attempt.route answers) ;;
  modify (update_page page_id
            (fun page => Page.with_routes ("**" :: Page.routes page) page)).

(** The statements of [_download_request_with_retry] before its [try]. *)
Definition prepare_page (answers : Attempt.t) : coroutine nat :=
  page_id ←
    step (fun w =>
       match retained_page w with
       | Some page_id => (w, Return page_id)
       | None => _create_page answers w
       end) ;
  setdefault_context_name ;;
  _attach_page_event_handlers page_id ;;
  install_route page_id answers ;;
  _maybe_execute_page_init_callback answers ;;
  ret page_id.

Definition _download_request_with_retry (answers : Attempt.t) : coroutine Response :=
  page_id ← prepare_page answers ;
  step (fun w =>
    match _download_request_with_page page_id answers w with
    | (w, Raise ex) =>
        if negb (truthy (meta_get w "camoufox_include_page"))
           && negb (page_is_closed w page_id)
        then
          match page_close page_id (Attempt.close_after_failure answers) w with
          | (w, Return tt) => (w, Raise ex)
          | (w, Raise ex') => (w, Raise ex')
          | (w, Pending) => (w, Pending)
          end
        else (w, Raise ex)
    | finished => finished
    end).

(** The [while True] loop of [_download_request], with one element of
    [attempts] for every run of the pipeline the engine has answered. *)
Fixpoint retry_loop (counter : Z) (attempts : list Attempt.t) : coroutine Response :=
  fun w =>
    match attempts with
    | [] => (w, Pending)
    | answers :: attempts =>
        match _download_request_with_retry answers w with
        | (w, Raise ex) =>
            if is_TargetClosedError ex then
              let counter := counter + 1 in
              if counter >? Config.target_closed_max_retries (Handler.config (handler w))
              then (w, Raise ex)
              else retry_loop counter attempts w
            else (w, Raise ex)
        | finished => finished
        end
    end.

Definition _download_request (attempts : list Attempt.t) : coroutine Response :=
  retry_loop 0 attempts.

(** The outcomes of the successive runs of the pipeline, each started in the
    world the run before it left. *)
Fixpoint pipeline_runs (attempts : list Attempt.t) (w : World)
  : list (outcome Response) :=
  match attempts with
  | [] => []
  | answers :: attempts =>
      let '(w, result) := _download_request_with_retry answers w in
      result :: pipeline_runs attempts w
  end.

End Pipeline.

(** *** Instances used in the examples *)

(** [bytes.decode("latin-1")]: every byte is the character of the same code
    point, so decoding never fails. *)
Definition decode_latin1 (body : list Byte.byte) (encoding : string) : exn + string :=
  inr (String.string_of_list_byte body).

(** [bytes.decode("ascii")]: a byte above 0x7f is rejected. *)
Definition decode_ascii (body : list Byte.byte) (encoding : string) : exn + string :=
  if forallb (fun b => (Byte.to_N b <? 128)%N) body
  then inr (String.string_of_list_byte body)
  else inl (UnicodeDecodeError "ordinal not in range(128)").

(** Modelled from the spec: [_is_safe_close_error] of [scrapy_camoufox._utils],
    which is not among the sources; a failure is a safe-close race when its
    message says that the target has been closed. *)
Definition is_safe_close_error_by_message (ex : exn) : bool :=
  contains "has been closed" (message_of ex).

(** An abort predicate that drops images. *)
Definition abort_images (playwright_request : PlaywrightRequest.t) : outcome bool :=
  Return (contains ".png" (PlaywrightRequest.url playwright_request)).

Definition plain_route : Route.t :=
  {| Route.abort_result := Return tt; Route.continue_result := Return tt |}.

Definition navigation_request (url method : string) : PlaywrightRequest.t :=
  PlaywrightRequest.mk url method true (Return [("user-agent", "camoufox")])
    (Return (Some 200)) None.

Definition image_request (url : string) : PlaywrightRequest.t :=
  PlaywrightRequest.mk url "GET" false (Return [("accept", "image/png")])
    (Return (Some 200)) None.

Definition unmatched_state : reconciler_state :=
  {| initial_request_done := false; headers := Headers_new [("accept", "text/html")] |}.

(** An instance of [_encode_body] for the examples: the text as bytes,
    labelled [utf-8]. *)
Definition encode_body_utf8 (headers : Headers) (text : string)
  : list Byte.byte * string :=
  (String.list_byte_of_string text, "utf-8").

Definition example_settings : Settings.t :=
  {| Settings.CAMOUFOX_LAUNCH_OPTIONS := [];
     Settings.CAMOUFOX_MAX_PAGES_PER_CONTEXT := 1;
     Settings.CAMOUFOX_MAX_CONTEXTS := 0;
     Settings.CAMOUFOX_CONTEXTS := [];
     Settings.CAMOUFOX_DEFAULT_NAVIGATION_TIMEOUT := None;
     Settings.CAMOUFOX_RESTART_DISCONNECTED_BROWSER := true;
     Settings._PLAYWRIGHT_THREADED_LOOP := false;
     Settings.CONCURRENT_REQUESTS := 16;
     Settings.platform_is_windows := false |}.

Definition example_config : Config.t := Config.from_settings example_settings.

(** The handler after [__init__], before any browser is launched. *)
Definition example_handler : Handler.t :=
  Handler.mk example_config None None ∅.

Definition example_request (meta : gmap string meta_value) : Request.t :=
  {| Request.url := "http://example.com/"; Request.method := "GET";
     Request.headers := []; Request.body := []; Request.encoding := "utf-8";
     Request.meta := meta |}.

Definition example_world (meta : gmap string meta_value) : World :=
  {| handler := example_handler; request := example_request meta;
     pages := ∅; spider := [] |}.

(** A navigation during which the page emits [during], that ends in
    [result], and after which the page emits [after]. *)
Definition example_navigation (during : list page_event)
    (result : outcome (option PlaywrightResponse.t)) (after : list page_event)
  : Navigation.t :=
  {| Navigation.closures := 0%nat;
     Navigation.events_during_goto := during;
     Navigation.goto_result := result;
     Navigation.url_after_goto := "http://example.com/";
     Navigation.events_after_goto := after |}.

(** A run of the pipeline in which every engine call other than the
    navigation succeeds; the engine hands out page [page_id]. *)
Definition example_attempt_on (page_id : nat) (nav : Navigation.t) : Attempt.t :=
  {| Attempt.launch := Return tt;
     Attempt.new_context := Return 1%nat;
     Attempt.new_page := Return page_id;
     Attempt.unroute := Return tt;
     Attempt.route := Return tt;
     Attempt.page_init_callback := Return tt;
     Attempt.navigation := nav;
     Attempt.page_methods := [];
     Attempt.page_content := Return "<html></html>";
     Attempt.close := Return tt;
     Attempt.close_after_failure := Return tt |}.

Definition example_attempt : Navigation.t -> Attempt.t := example_attempt_on 7.

Definition target_closed : string := "Target page, context or browser has been closed".

(** A run in which the page is lost during the navigation. *)
Definition target_closed_attempt (page_id : nat) : Attempt.t :=
  example_attempt_on page_id
    (example_navigation [] (Raise (TargetClosedError target_closed)) []).

(** A run in which the navigation returns no response. *)
Definition quiet_attempt (page_id : nat) : Attempt.t :=
  example_attempt_on page_id (example_navigation [] (Return None) []).

(** A run in which the server refuses the connection. *)
Definition refused_attempt : Attempt.t :=
  example_attempt
    (example_navigation [] (Raise (PlaywrightError "NS_ERROR_CONNECTION_REFUSED")) []).

(** A run in which the page crashes before the route is installed. *)
Definition crashed_before_route_attempt : Attempt.t :=
  {| Attempt.launch := Return tt;
     Attempt.new_context := Return 1%nat;
     Attempt.new_page := Return 7%nat;
     Attempt.unroute := Return tt;
     Attempt.route := Raise (PlaywrightError "Page crashed");
     Attempt.page_init_callback := Return tt;
     Attempt.navigation := example_navigation [] (Return None) [];
     Attempt.page_methods := [];
     Attempt.page_content := Return "<html></html>";
     Attempt.close := Return tt;
     Attempt.close_after_failure := Return tt |}.

Definition example_page : Page.t :=
  new_page_object example_handler DEFAULT_CONTEXT_NAME.

Definition download_is_starting : exn := PlaywrightError "Download is starting".

Definition example_response : PlaywrightResponse.t :=
  {| PlaywrightResponse.url := "http://example.com/";
     PlaywrightResponse.status := 200;
     PlaywrightResponse.request := hop "http://example.com/" (Some 200) None;
     PlaywrightResponse.all_headers := [("content-type", "text/html")];
     PlaywrightResponse.security_details := None;
     PlaywrightResponse.server_ip_address := Some "93.184.216.34" |}.

(** A navigation that the engine gives up for a download: the download is
    announced during the navigation and finishes after it with [body]. *)
Definition example_download_navigation (body : list Byte.byte) : Navigation.t :=
  example_navigation [response_observed 200; download_begins]
    (Raise download_is_starting)
    [download_ends (download_saved body "http://example.com/report.pdf" "report.pdf")].

(** The world after [_create_page] has created page 7 in the default
    context, whose page semaphore has one slot. *)
Definition example_world_with_page : World :=
  fst (_create_page (example_attempt (example_navigation [] (Return None) []))
         (example_world ∅)).

(** The document built from the example page when the navigation returned
    no response. *)
Definition example_document : Response :=
  document_response "http://example.com/" 200 []
    (String.list_byte_of_string "<html></html>") "utf-8" None.

(** * Properties *)

Section RedirectChain.

(** Induction along the backward links of a request. *)
Lemma request_chain_ind (P : PlaywrightRequest.t -> Prop) :
(forall u m n h s, P (PlaywrightRequest.mk u m n h s None)) ->
(forall u m n h s r, P r -> P (PlaywrightRequest.mk u m n h s (Some r))) ->
forall r, P r.
Proof.
intros Hlast Hlink. fix IH 1.
intros [u m n h s [r|]].
- apply Hlink, IH.
- apply Hlast.
Qed.

Lemma hops_backward_nonempty (r : PlaywrightRequest.t) :
exists t, hops_backward r = r :: t.
Proof. destruct r as [u m n h s f]. cbn. eauto. Qed.

(** The loop when the engine knows the response of every hop: [backward]
    lists the (url, status-or-unknown) pairs in the order of the walk. *)
Lemma while_redirected_returns (r : PlaywrightRequest.t) :
forall acc (backward : list (string * option Z)),
  (fun r => (PlaywrightRequest.url r, PlaywrightRequest.response r)) <$> hops_backward r
  = (fun hop => (fst hop, Return (snd hop))) <$> backward ->
  while_redirected r acc =
  Return
    {| redirect_times := redirect_times acc + Z.of_nat (length backward);
       redirect_urls := redirect_urls acc ++ ((fun hop => MStr (fst hop)) <$> backward);
       redirect_reasons :=
         redirect_reasons acc
           ++ ((fun hop => match snd hop with
                           | Some status => MInt status
                           | None => MNone
                           end) <$> backward) |}.
Proof.
induction r as [u m n h s|u m n h s r IH] using request_chain_ind;
  intros acc backward Hwalk.
- destruct backward as [|[url0 status0] [|? ?]]; try discriminate Hwalk.
  cbn in Hwalk. injection Hwalk as -> ->. cbn.
  destruct status0; reflexivity.
- destruct backward as [|[url0 status0] backward]; [discriminate Hwalk|].
  cbn [hops_backward PlaywrightRequest.redirected_from fmap list_fmap] in Hwalk.
  cbn [PlaywrightRequest.url PlaywrightRequest.response fst snd] in Hwalk.
  injection Hwalk as -> -> Hwalk.
  cbn [while_redirected]. rewrite (IH _ backward Hwalk).
  cbn [redirect_times redirect_urls redirect_reasons fmap list_fmap length fst snd].
  rewrite <- !app_assoc. cbn [app]. f_equal. f_equal. lia.
Qed.

(** The loop when the engine fails to give the response of a hop: the
    exception of the first such hop of the walk is raised. *)
Lemma while_redirected_raises (r : PlaywrightRequest.t) :
forall acc before failing after ex,
  hops_backward r = before ++ failing :: after ->
  Forall (fun j => exists status, PlaywrightRequest.response j = Return status) before ->
  PlaywrightRequest.response failing = Raise ex ->
  while_redirected r acc = Raise ex.
Proof.
induction r as [u m n h s|u m n h s r IH] using request_chain_ind;
  intros acc before failing after ex Hwalk Hbefore Hfailing.
- destruct before as [|j [|? ?]]; try discriminate Hwalk.
  cbn in Hwalk. injection Hwalk as <- _. cbn in Hfailing. subst s. reflexivity.
- cbn [hops_backward PlaywrightRequest.redirected_from] in Hwalk.
  destruct before as [|j before].
  + cbn in Hwalk. injection Hwalk as <- _. cbn in Hfailing. subst s. reflexivity.
  + cbn [app] in Hwalk. injection Hwalk as <- Hwalk.
    apply Forall_cons in Hbefore as [[status Hstatus] Hbefore].
    cbn in Hstatus. subst s. cbn [while_redirected].
    apply (IH _ before failing after ex Hwalk Hbefore Hfailing).
Qed.

(** C6. [_set_redirect_meta] walks the redirected-from links backward from
  the terminal response until none remains, collects the (url,
  status-or-unknown) pairs and exposes them reversed, in chronological
  order: when the engine gives the response of every hop of the walk and
  [backward] lists their urls and statuses, [request.meta] receives the
  count, the urls and the reasons (the status, or [None] when the hop got
  no response) of [backward] reversed.  For a response reached through
  A -> B -> C this is urls [A; B], reasons [status at A; status at B] and
  count 2, with [None] in the place of the status of a hop that got no
  response.  For a terminal response with no redirected-from link
  [request.meta] is left as it was.  When the engine raises for the
  response of a hop, that exception is raised and nothing is exposed. *)
Theorem set_redirect_meta_chronological :
(forall meta response (backward : list (string * option Z)),
    (fun r => (PlaywrightRequest.url r, PlaywrightRequest.response r))
      <$> redirected_from_links response
    = (fun hop => (fst hop, Return (snd hop))) <$> backward ->
    _set_redirect_meta meta response
    = Return (redirect_meta_spec meta (reverse backward))) /\
(forall meta A B C mA mB mC nA nB nC hA hB hC (sA sB : Z) rC rurl rstatus hd sec ip,
    let a := PlaywrightRequest.mk A mA nA hA (Return (Some sA)) None in
    let b := PlaywrightRequest.mk B mB nB hB (Return (Some sB)) (Some a) in
    let c := PlaywrightRequest.mk C mC nC hC rC (Some b) in
    _set_redirect_meta meta (PlaywrightResponse.mk rurl rstatus c hd sec ip) =
    Return
      (<["redirect_reasons" := MList [MInt sA; MInt sB]]>
         (<["redirect_urls" := MList [MStr A; MStr B]]>
            (<["redirect_times" := MInt 2]> meta)))) /\
(forall meta A B C mA mB mC nA nB nC hA hB hC (sB : Z) rC rurl rstatus hd sec ip,
    let a := PlaywrightRequest.mk A mA nA hA (Return None) None in
    let b := PlaywrightRequest.mk B mB nB hB (Return (Some sB)) (Some a) in
    let c := PlaywrightRequest.mk C mC nC hC rC (Some b) in
    _set_redirect_meta meta (PlaywrightResponse.mk rurl rstatus c hd sec ip) =
    Return
      (<["redirect_reasons" := MList [MNone; MInt sB]]>
         (<["redirect_urls" := MList [MStr A; MStr B]]>
            (<["redirect_times" := MInt 2]> meta)))) /\
(forall meta C mC nC hC rC rurl rstatus hd sec ip,
    _set_redirect_meta meta
      (PlaywrightResponse.mk rurl rstatus (PlaywrightRequest.mk C mC nC hC rC None)
         hd sec ip)
    = Return meta) /\
(forall meta response before failing after ex,
    redirected_from_links response = before ++ failing :: after ->
    Forall (fun j => exists status, PlaywrightRequest.response j = Return status)
      before ->
    PlaywrightRequest.response failing = Raise ex ->
    _set_redirect_meta meta response = Raise ex).
Proof.
split; [|split; [|split; [|split]]].
- intros meta response backward Hwalk.
  unfold _set_redirect_meta. unfold redirected_from_links in Hwalk.
  destruct (PlaywrightRequest.redirected_from (PlaywrightResponse.request response))
    as [r|].
  + rewrite (while_redirected_returns r _ backward Hwalk).
    cbn [redirect_times redirect_urls redirect_reasons app].
    destruct (hops_backward_nonempty r) as (t & Hr). rewrite Hr in Hwalk.
    destruct backward as [|first backward]; [discriminate Hwalk|].
    assert (Hlen : (0 + Z.of_nat (length (first :: backward)) =? 0) = false)
      by (apply Z.eqb_neq; cbn [length]; lia).
    rewrite Hlen. unfold redirect_meta_spec.
    destruct (reverse (first :: backward)) as [|last chain] eqn:Hchain.
    { apply (f_equal length) in Hchain. rewrite length_reverse in Hchain.
      discriminate Hchain. }
    rewrite <- Hchain, !fmap_reverse, length_reverse, Z.add_0_l. reflexivity.
  + destruct backward; [reflexivity|discriminate Hwalk].
- intros. reflexivity.
- intros. reflexivity.
- intros. reflexivity.
- intros meta response before failing after ex Hwalk Hbefore Hfailing.
  unfold _set_redirect_meta. unfold redirected_from_links in Hwalk.
  destruct (PlaywrightRequest.redirected_from (PlaywrightResponse.request response))
    as [r|].
  + rewrite (while_redirected_raises r _ before failing after ex Hwalk Hbefore Hfailing).
    reflexivity.
  + destruct before; discriminate Hwalk.
Qed.

End RedirectChain.

(** A response reached through two redirects, the first of which got no
    response; and a walk during which the page is lost. *)
Lemma set_redirect_meta_chronological_witness :
  _set_redirect_meta ∅
    {| PlaywrightResponse.url := "http://example.com/c";
       PlaywrightResponse.status := 200;
       PlaywrightResponse.request :=
         hop "http://example.com/c" (Some 200)
           (Some (hop "http://example.com/b" (Some 302)
                    (Some (hop "http://example.com/a" None None))));
       PlaywrightResponse.all_headers := [];
       PlaywrightResponse.security_details := None;
       PlaywrightResponse.server_ip_address := None |}
  = Return
      (<["redirect_reasons" := MList [MNone; MInt 302]]>
         (<["redirect_urls" := MList [MStr "http://example.com/a";
                                      MStr "http://example.com/b"]]>
            (<["redirect_times" := MInt 2]> ∅))) /\
  _set_redirect_meta ∅
    {| PlaywrightResponse.url := "http://example.com/c";
       PlaywrightResponse.status := 200;
       PlaywrightResponse.request :=
         hop "http://example.com/c" (Some 200)
           (Some (hop "http://example.com/b" (Some 302)
                    (Some (PlaywrightRequest.mk "http://example.com/a" "GET" true
                             (Return []) (Raise (TargetClosedError target_closed))
                             None))));
       PlaywrightResponse.all_headers := [];
       PlaywrightResponse.security_details := None;
       PlaywrightResponse.server_ip_address := None |}
  = Raise (TargetClosedError target_closed).
Proof.
  split.
  - apply (proj1 set_redirect_meta_chronological ∅ _
             [("http://example.com/b", Some 302); ("http://example.com/a", None)]).
    reflexivity.
  - apply (proj2 (proj2 (proj2 (proj2 set_redirect_meta_chronological))) ∅ _
             [hop "http://example.com/b" (Some 302)
                (Some (PlaywrightRequest.mk "http://example.com/a" "GET" true
                         (Return []) (Raise (TargetClosedError target_closed))
                         None))]
             (PlaywrightRequest.mk "http://example.com/a" "GET" true
                (Return []) (Raise (TargetClosedError target_closed)) None)
             []).
    + reflexivity.
    + repeat constructor. exists (Some 302). reflexivity.
    + reflexivity.
Defined.



Section Reconciler.

Variable decode : list Byte.byte -> string -> exn + string.
Variable _is_safe_close_error : exn -> bool.
Variable abort_request : option (PlaywrightRequest.t -> outcome bool).
Variables (method url : string) (body : list Byte.byte) (encoding : string).

Local Abbreviation handler :=
  (_request_handler decode _is_safe_close_error abort_request method url body encoding).
Local Abbreviation run :=
  (handle_all decode _is_safe_close_error abort_request method url body encoding).
Local Abbreviation other := (other_result _is_safe_close_error abort_request).
Local Abbreviation is_eligible := (eligible abort_request url).

Lemma continue_is_continued route :
  continue_ _is_safe_close_error route = continued _is_safe_close_error route.
Proof.
  unfold continue_, continued.
  destruct (Route.continue_result route) as [[]|ex|]; [reflexivity| |reflexivity].
  destruct ex; reflexivity.
Qed.

(** A sub-request that arrives once the fetch is matched, or that is not
    eligible, is handled as a sub-request other than the matching one and
    leaves the state as it is. *)
Lemma handler_of_other st route playwright_request :
  initial_request_done st = true \/ is_eligible playwright_request = false ->
  handler st route playwright_request =
  (st, fst (other (route, playwright_request)),
   snd (other (route, playwright_request))).
Proof.
  intros Hother.
  unfold _request_handler, other_result, should_abort, is_initial_request.
  unfold eligible, let_through, headers_resolved, navigates_to_url in Hother.
  cbn [fst snd]. rewrite <- continue_is_continued.
  destruct abort_request as [predicate|].
  - destruct (predicate playwright_request) as [[|]| |]; try reflexivity.
    destruct (PlaywrightRequest.all_headers playwright_request) as [h|ex|];
      try reflexivity.
    destruct Hother as [Hdone|Hnot].
    + rewrite Hdone, andb_false_r. reflexivity.
    + cbn [andb] in Hnot. rewrite Hnot. reflexivity.
  - destruct (PlaywrightRequest.all_headers playwright_request) as [h|ex|];
      try reflexivity.
    destruct Hother as [Hdone|Hnot].
    + rewrite Hdone, andb_false_r. reflexivity.
    + cbn [andb] in Hnot. rewrite Hnot. reflexivity.
Qed.

Lemma handle_all_others st intercepted :
  initial_request_done st = true
  \/ Forall (fun j => is_eligible (snd j) = false) intercepted ->
  run st intercepted = (st, other <$> intercepted).
Proof.
  intros Hother. induction intercepted as [|[route rq] rest IH]; [reflexivity|].
  cbn [handle_all]. rewrite handler_of_other.
  - rewrite IH.
    + cbn [fmap list_fmap]. destruct (other (route, rq)); reflexivity.
    + destruct Hother as [Hdone|Hall]; [left; exact Hdone|].
      right. apply Forall_cons in Hall as [_ Hall]. exact Hall.
  - destruct Hother as [Hdone|Hall]; [left; exact Hdone|].
    right. apply Forall_cons in Hall as [Hrq _]. exact Hrq.
Qed.

(** The sub-requests that precede the first eligible one do not change the
    state. *)
Lemma handle_all_app st before rest :
  Forall (fun j => is_eligible (snd j) = false) before ->
  run st (before ++ rest) =
  (fst (run st rest), (other <$> before) ++ snd (run st rest)).
Proof.
  induction 1 as [|[route rq] before Hrq _ IH].
  - cbn [app fmap list_fmap]. destruct (run st rest); reflexivity.
  - cbn [app handle_all]. rewrite handler_of_other by (right; exact Hrq).
    rewrite IH. cbn [fmap list_fmap app]. destruct (other (route, rq)); reflexivity.
Qed.

(** What the handler does with an eligible sub-request that arrives while
    the fetch is unmatched. *)
Lemma handler_of_initial st route playwright_request final_headers :
  initial_request_done st = false ->
  let_through abort_request playwright_request = true ->
  PlaywrightRequest.all_headers playwright_request = Return final_headers ->
  navigates_to_url url playwright_request = true ->
  handler st route playwright_request =
  match declared_payload decode body encoding with
  | inl ex =>
      ({| initial_request_done := true; headers := headers st |},
       [call_all_headers], Raise ex)
  | inr post_data =>
      ({| initial_request_done := true; headers := Headers_new final_headers |},
       [call_all_headers;
        call_continue
          {| override_method :=
               if String.eqb (upper method)
                    (upper (PlaywrightRequest.method playwright_request))
               then None else Some method;
             override_post_data := post_data |}],
       continued _is_safe_close_error route)
  end.
Proof.
  intros Hdone Hthrough Hheaders Hnavigates.
  unfold _request_handler, should_abort, is_initial_request.
  unfold let_through in Hthrough. unfold navigates_to_url in Hnavigates.
  rewrite Hheaders, Hnavigates, Hdone, <- continue_is_continued. cbn [negb andb].
  assert (Hverdict : match abort_request with
                     | Some predicate => predicate playwright_request
                     | None => Return false
                     end = Return false).
  { destruct abort_request as [predicate|]; [|reflexivity].
    destruct (predicate playwright_request) as [[|]| |];
      [discriminate Hthrough|reflexivity|discriminate Hthrough..]. }
  rewrite Hverdict.
  destruct (declared_payload decode body encoding) as [ex|post_data]; [reflexivity|].
  destruct (String.eqb (upper method) (upper (PlaywrightRequest.method playwright_request)));
    reflexivity.
Qed.

(** C1 (amended).  Of the sub-requests intercepted for a fetch that is
    still unmatched, the matching one is the first that is eligible: the
    abort predicate lets it through, its resolved headers are obtained, and
    it is a top-level navigation to the request's URL (trailing slashes
    ignored).  The state is matched from then on, so every sub-request
    before and after it is handled as another one ([other_result]): aborted
    only, continued with no overrides, or neither when the predicate or the
    resolution of the headers raises or does not return.
    - When the request's body is empty or decodes with the request's
      encoding, the header view becomes the resolved headers and the
      matching sub-request is continued with the method overridden iff it
      differs, letter case ignored, from the request's method and with the
      decoded body, if not empty, as the payload.
    - When the body does not decode, the handler raises the decoding error
      for the matching sub-request: it is not continued and the header view
      is left as it was.
    - When the fetch is already matched, or no sub-request is eligible, the
      state is unchanged and every sub-request is handled as another one. *)
Theorem one_initial_request st :
  (forall before route playwright_request after final_headers text,
      initial_request_done st = false ->
      Forall (fun j => is_eligible (snd j) = false) before ->
      let_through abort_request playwright_request = true ->
      PlaywrightRequest.all_headers playwright_request = Return final_headers ->
      navigates_to_url url playwright_request = true ->
      (body ≠ [] -> decode body encoding = inr text) ->
      run st (before ++ (route, playwright_request) :: after) =
      ({| initial_request_done := true; headers := Headers_new final_headers |},
       (other <$> before)
         ++ ([call_all_headers;
              call_continue
                {| override_method :=
                     if String.eqb (upper method)
                          (upper (PlaywrightRequest.method playwright_request))
                     then None else Some method;
                   override_post_data :=
                     match body with
                     | [] => None
                     | _ :: _ => Some text
                     end |}],
             continued _is_safe_close_error route)
         :: (other <$> after))) /\
  (forall before route playwright_request after final_headers ex,
      initial_request_done st = false ->
      Forall (fun j => is_eligible (snd j) = false) before ->
      let_through abort_request playwright_request = true ->
      PlaywrightRequest.all_headers playwright_request = Return final_headers ->
      navigates_to_url url playwright_request = true ->
      body ≠ [] ->
      decode body encoding = inl ex ->
      run st (before ++ (route, playwright_request) :: after) =
      ({| initial_request_done := true; headers := headers st |},
       (other <$> before) ++ ([call_all_headers], Raise ex) :: (other <$> after))) /\
  (forall intercepted,
      initial_request_done st = true
      \/ Forall (fun j => is_eligible (snd j) = false) intercepted ->
      run st intercepted = (st, other <$> intercepted)).
Proof.
  split; [|split].
  - intros before route rq after final_headers text Hdone Hbefore Hthrough Hheaders
      Hnavigates Hdecodes.
    rewrite handle_all_app by exact Hbefore. cbn [handle_all].
    rewrite (handler_of_initial st route rq final_headers Hdone Hthrough Hheaders
               Hnavigates).
    assert (Hpayload : declared_payload decode body encoding =
                       inr (match body with [] => None | _ :: _ => Some text end)).
    { unfold declared_payload. destruct body as [|b rest]; [reflexivity|].
      rewrite Hdecodes by discriminate. reflexivity. }
    rewrite Hpayload, handle_all_others by (left; reflexivity). reflexivity.
  - intros before route rq after final_headers ex Hdone Hbefore Hthrough Hheaders
      Hnavigates Hbody Hfails.
    rewrite handle_all_app by exact Hbefore. cbn [handle_all].
    rewrite (handler_of_initial st route rq final_headers Hdone Hthrough Hheaders
               Hnavigates).
    assert (Hpayload : declared_payload decode body encoding = inl ex).
    { unfold declared_payload. destruct body as [|b rest]; [congruence|].
      rewrite Hfails. reflexivity. }
    rewrite Hpayload, handle_all_others by (left; reflexivity). reflexivity.
  - apply handle_all_others.
Qed.

(** C8.  When the configured abort predicate is true of a sub-request, the
    handler aborts it and returns: [route.abort()] is its only engine call
    (the resolved headers are not read and the route is not continued), and
    the per-fetch state is untouched, so the sub-request is not matched. *)
Theorem aborted_request_never_matches predicate st route playwright_request :
  abort_request = Some predicate ->
  predicate playwright_request = Return true ->
  let '(st', calls, result) := handler st route playwright_request in
  st' = st /\ calls = [call_abort] /\ result = Route.abort_result route /\
  (call_all_headers ∉ calls) /\ (forall kwargs, call_continue kwargs ∉ calls) /\
  initial_request_done st' = initial_request_done st /\ headers st' = headers st.
Proof.
  intros Hconfigured Htrue. unfold _request_handler, should_abort.
  rewrite Hconfigured, Htrue.
  repeat split; try reflexivity.
  - intros Hin. apply list_elem_of_singleton in Hin. discriminate.
  - intros kwargs Hin. apply list_elem_of_singleton in Hin. discriminate.
Qed.

End Reconciler.

(** A POST of [a=1] to [http://example.com/]: the icon is not a navigation
    and the image is aborted; the first navigation request is the initial
    one, and the navigation request that follows it is continued as it is.
    And the same fetch with a body that is not ASCII: the navigation
    request is the initial one, and it is not continued. *)
Lemma one_initial_request_witness :
  handle_all decode_ascii is_safe_close_error_by_message (Some abort_images)
    "POST" "http://example.com/" (String.list_byte_of_string "a=1") "ascii"
    unmatched_state
    ([(plain_route, image_request "http://example.com/favicon.ico");
      (plain_route, image_request "http://example.com/logo.png")]
       ++ (plain_route, navigation_request "http://example.com" "GET")
       :: [(plain_route, navigation_request "http://example.com/" "GET")]) =
  ({| initial_request_done := true;
      headers := [("User-Agent", ["camoufox"])] |},
   [([call_all_headers; call_continue no_overrides], Return tt);
    ([call_abort], Return tt);
    ([call_all_headers;
      call_continue {| override_method := Some "POST";
                       override_post_data := Some "a=1" |}], Return tt);
    ([call_all_headers; call_continue no_overrides], Return tt)]) /\
  handle_all decode_ascii is_safe_close_error_by_message (Some abort_images)
    "POST" "http://example.com/" [Byte.xff] "ascii" unmatched_state
    ([(plain_route, image_request "http://example.com/favicon.ico")]
       ++ (plain_route, navigation_request "http://example.com" "GET")
       :: [(plain_route, navigation_request "http://example.com/" "GET")]) =
  ({| initial_request_done := true; headers := headers unmatched_state |},
   [([call_all_headers; call_continue no_overrides], Return tt);
    ([call_all_headers], Raise (UnicodeDecodeError "ordinal not in range(128)"));
    ([call_all_headers; call_continue no_overrides], Return tt)]).
Proof.
  split.
  - refine (proj1
              (one_initial_request decode_ascii is_safe_close_error_by_message
                 (Some abort_images) "POST" "http://example.com/"
                 (String.list_byte_of_string "a=1") "ascii" unmatched_state)
              [(plain_route, image_request "http://example.com/favicon.ico");
               (plain_route, image_request "http://example.com/logo.png")]
              plain_route (navigation_request "http://example.com" "GET")
              [(plain_route, navigation_request "http://example.com/" "GET")]
              [("user-agent", "camoufox")] "a=1" _ _ _ _ _ _).
    + reflexivity.
    + repeat constructor.
    + reflexivity.
    + reflexivity.
    + reflexivity.
    + intros _. reflexivity.
  - refine (proj1 (proj2
              (one_initial_request decode_ascii is_safe_close_error_by_message
                 (Some abort_images) "POST" "http://example.com/"
                 [Byte.xff] "ascii" unmatched_state))
              [(plain_route, image_request "http://example.com/favicon.ico")]
              plain_route (navigation_request "http://example.com" "GET")
              [(plain_route, navigation_request "http://example.com/" "GET")]
              [("user-agent", "camoufox")]
              (UnicodeDecodeError "ordinal not in range(128)") _ _ _ _ _ _ _).
    + reflexivity.
    + repeat constructor.
    + reflexivity.
    + reflexivity.
    + reflexivity.
    + discriminate.
    + reflexivity.
Defined.

(** The claim as it is written fails in two ways.  A fetch whose body does
    not decode with its encoding: the top-level navigation to the URL is
    the matching sub-request (the state becomes matched), yet no payload is
    attached, the sub-request is not continued and the header view is not
    replaced.  A fetch whose method differs from the sub-request's in letter
    case only: the methods differ, yet the method is not overridden. *)
Lemma matching_request_is_not_overridden :
  handle_all decode_ascii is_safe_close_error_by_message None
    "POST" "http://example.com/" [Byte.xff] "ascii" unmatched_state
    [(plain_route, navigation_request "http://example.com/" "GET")] =
  ({| initial_request_done := true; headers := headers unmatched_state |},
   [([call_all_headers], Raise (UnicodeDecodeError "ordinal not in range(128)"))]) /\
  headers unmatched_state = [("Accept", ["text/html"])] /\
  String.eqb "GET" "get" = false /\
  handle_all decode_ascii is_safe_close_error_by_message None
    "GET" "http://example.com/" [] "ascii" unmatched_state
    [(plain_route, navigation_request "http://example.com/" "get")] =
  ({| initial_request_done := true; headers := [("User-Agent", ["camoufox"])] |},
   [([call_all_headers; call_continue no_overrides], Return tt)]).
Proof. repeat split. Qed.

Lemma aborted_request_never_matches_witness :
  let '(st', calls, result) :=
    _request_handler decode_latin1 is_safe_close_error_by_message (Some abort_images)
      "GET" "http://example.com/logo.png" [] "utf-8" unmatched_state plain_route
      (navigation_request "http://example.com/logo.png" "GET") in
  st' = unmatched_state /\ calls = [call_abort] /\
  result = Route.abort_result plain_route /\
  (call_all_headers ∉ calls) /\ (forall kwargs, call_continue kwargs ∉ calls) /\
  initial_request_done st' = initial_request_done unmatched_state /\
  headers st' = headers unmatched_state.
Proof.
  exact (aborted_request_never_matches decode_latin1 is_safe_close_error_by_message
           (Some abort_images) "GET" "http://example.com/logo.png" [] "utf-8"
           abort_images unmatched_state plain_route
           (navigation_request "http://example.com/logo.png" "GET")
           eq_refl eq_refl).
Defined.

(** Removing a listener that is not subscribed changes nothing. *)
Lemma filter_absent {A : Type} `{EqDecision A} (x : A) (l : list A) :
  x ∉ l -> filter (fun y => y ≠ x) l = l.
Proof.
  induction l as [|y l IH]; intros Hx; [reflexivity|].
  apply not_elem_of_cons in Hx as [Hne Hx].
  rewrite filter_cons_True by congruence. rewrite IH by assumption. reflexivity.
Qed.

Lemma filter_itself {A : Type} `{EqDecision A} (x : A) :
  filter (fun y => y ≠ x) [x] = [].
Proof.
  rewrite filter_cons_False; [reflexivity|].
  intros Hne. apply Hne. reflexivity.
Qed.

Lemma filter_other {A : Type} `{EqDecision A} (x y : A) :
  y ≠ x -> filter (fun z => z ≠ x) [y] = [y].
Proof. intros Hne. rewrite filter_cons_True by exact Hne. reflexivity. Qed.

Lemma subscribe_then_remove {A : Type} `{EqDecision A} (a b : A) (l : list A) :
  a ∉ l -> b ∉ l -> b ≠ a ->
  filter (fun y => y ≠ b) (filter (fun y => y ≠ a) ((l ++ [a]) ++ [b])) = l.
Proof.
  intros Ha Hb Hne.
  rewrite !filter_app, (filter_absent _ _ Ha), filter_itself.
  rewrite filter_other by exact Hne.
  rewrite filter_nil, app_nil_r, (filter_absent _ _ Hb), filter_itself.
  apply app_nil_r.
Qed.

Section Arbiter.

Variables (cfg : Config.t) (meta : gmap string meta_value) (page : Page.t)
  (nav : Navigation.t).

Local Abbreviation on_download := (_handle_download (Navigation.closures nav)).
Local Abbreviation on_response := (_handle_response (Navigation.closures nav)).

(** Subscribing the two closures and removing them again leaves the
    listeners of the page as they were. *)
Lemma listeners_restored u :
  ("download", on_download) ∉ Page.listeners page ->
  ("response", on_response) ∉ Page.listeners page ->
  Page.listeners
    (Page.remove_listener "response" on_response
       (Page.remove_listener "download" on_download
          (Page.with_url u
             (Page.on "response" on_response (Page.on "download" on_download page)))))
  = Page.listeners page.
Proof.
  intros Hd Hr. unfold Page.on at 2.
  destruct (decide (("download", on_download) ∈ Page.listeners page)) as [Hin|_];
    [contradiction|].
  unfold Page.on. cbn [Page.listeners Page.with_listeners].
  destruct (decide (("response", on_response)
                      ∈ Page.listeners page ++ [("download", on_download)])) as [Hin|_].
  { apply elem_of_app in Hin as [Hin|Hin]; [contradiction|].
    apply list_elem_of_singleton in Hin. discriminate. }
  cbn [Page.remove_listener Page.with_url Page.listeners Page.with_listeners].
  apply subscribe_then_remove; [assumption|assumption|discriminate].
Qed.

Lemma present_is_truthy d d' : present d = Some d' -> Download.__bool__ d' = true.
Proof.
  unfold present. destruct (Download.__bool__ d) eqn:Hb; [|discriminate].
  intros [= <-]. exact Hb.
Qed.

(** C9 (amended).  The arbiter ends by raising or by returning a pair of an
    optional response and an optional download; both, one or none of the
    two may be present, a returned download is a present one, and after a
    failed navigation the response is [None].  Whenever it ends, by
    returning or by raising, the listeners of the page are what they were
    before the call: the two closures it subscribed are removed. *)
Theorem arbiter_removes_its_listeners :
  ("download", on_download) ∉ Page.listeners page ->
  ("response", on_response) ∉ Page.listeners page ->
  let '(_, page', result) := _get_response_and_download cfg meta page nav in
  match result with
  | Pending => True
  | Raise _ => Page.listeners page' = Page.listeners page
  | Return (response, download) =>
      Page.listeners page' = Page.listeners page /\
      (forall d, download = Some d -> Download.__bool__ d = true) /\
      (forall err, Navigation.goto_result nav = Raise err -> response = None)
  end.
Proof.
  intros Hd Hr. unfold _get_response_and_download.
  destruct (pop_url_of_goto_kwargs meta) as [ex|meta']; [reflexivity|].
  destruct (Navigation.goto_result nav) as [response|err|]; [| |exact I].
  - split; [apply listeners_restored; assumption|].
    split; [intros d; apply present_is_truthy|discriminate].
  - destruct (negb (is_PlaywrightError err) || negb (is_download_signal cfg err));
      [apply listeners_restored; assumption|].
    destruct (wait_until download_started _ _) as [[w events]|]; [|exact I].
    destruct (Download.response_status (download w) =? 204);
      [apply listeners_restored; assumption|].
    destruct (wait_until download_ready w events) as [[w' events']|]; [|exact I].
    split; [apply listeners_restored; assumption|].
    split; [intros d; apply present_is_truthy|reflexivity].
Qed.

(** C3 (amended).  When the navigation fails with the download-in-progress
    signal, the arbiter waits for the download-started event.  If the last
    observed status is then 204 it re-raises the navigation error.  If it is
    not, it waits for the download to finish and returns no response
    together with the download when that is present, and in particular when
    its body is not empty; a download that finished with an empty body and
    no failure is not returned.  A navigation error that does not carry the
    signal is raised as it is. *)
Theorem download_signal_arbitration meta' err :
  pop_url_of_goto_kwargs meta = inr meta' ->
  Navigation.goto_result nav = Raise err ->
  let result := snd (_get_response_and_download cfg meta page nav) in
  let seen := fold_left deliver (Navigation.events_during_goto nav) new_watch in
  (is_PlaywrightError err && is_download_signal cfg err = false -> result = Raise err) /\
  (is_PlaywrightError err && is_download_signal cfg err = true ->
   forall started events,
     wait_until download_started seen (Navigation.events_after_goto nav)
     = Some (started, events) ->
     (Download.response_status (download started) = 204 -> result = Raise err) /\
     (Download.response_status (download started) ≠ 204 ->
      forall ready events',
        wait_until download_ready started events = Some (ready, events') ->
        result = Return (None, present (download ready)) /\
        (Download.body (download ready) ≠ [] ->
         result = Return (None, Some (download ready))) /\
        (Download.body (download ready) = [] ->
         Download.exception (download ready) = None ->
         result = Return (None, None)))).
Proof.
  intros Hkwargs Hgoto. cbv zeta. unfold _get_response_and_download.
  rewrite Hkwargs, Hgoto. split.
  - intros Hsignal. apply andb_false_iff in Hsignal as [-> | ->];
      [|rewrite orb_true_r]; reflexivity.
  - intros Hsignal. apply andb_true_iff in Hsignal as [-> ->]. cbn [negb orb].
    intros started events ->. split.
    + intros ->. reflexivity.
    + intros Hstatus. apply Z.eqb_neq in Hstatus. rewrite Hstatus.
      intros ready events' ->. cbn [snd]. split; [reflexivity|]. split.
      * intros Hbody. unfold present, Download.__bool__.
        destruct (Download.body (download ready)); [contradiction|]. reflexivity.
      * intros Hbody Hexception. unfold present, Download.__bool__.
        rewrite Hbody, Hexception. reflexivity.
Qed.

End Arbiter.

Lemma arbiter_removes_its_listeners_witness :
  let '(_, page', result) :=
    _get_response_and_download example_config ∅ example_page
      (example_navigation [] (Return (Some example_response)) []) in
  match result with
  | Pending => True
  | Raise _ => Page.listeners page' = Page.listeners example_page
  | Return (response, download) =>
      Page.listeners page' = Page.listeners example_page /\
      (forall d, download = Some d -> Download.__bool__ d = true) /\
      (forall err,
          Navigation.goto_result
            (example_navigation [] (Return (Some example_response)) []) = Raise err ->
          response = None)
  end.
Proof.
  refine (arbiter_removes_its_listeners example_config ∅ example_page
            (example_navigation [] (Return (Some example_response)) []) _ _);
    vm_compute; intros Hin;
    repeat (apply elem_of_cons in Hin as [Hin|Hin]; [discriminate|]);
    apply elem_of_nil in Hin; exact Hin.
Defined.

(** The claim as it is written fails when the navigation returns no response
    and the page starts no download: the arbiter returns, and neither a
    response nor a download nor an exception results. *)
Lemma arbiter_may_return_nothing :
  snd (_get_response_and_download example_config ∅ example_page
         (example_navigation [] (Return None) []))
  = Return (None, None).
Proof. reflexivity. Qed.

(** A download that finishes while the navigation succeeds is returned
    together with the response. *)
Example arbiter_may_return_both :
  exists d,
    snd (_get_response_and_download example_config ∅ example_page
           (example_navigation
              [download_begins;
               download_ends (download_saved [Byte.x25; Byte.x50; Byte.x44; Byte.x46]
                                "http://example.com/report.pdf" "report.pdf")]
              (Return (Some example_response)) []))
    = Return (Some example_response, Some d).
Proof. eexists. reflexivity. Qed.


Lemma download_signal_arbitration_witness :
  snd (_get_response_and_download example_config ∅ example_page
         (example_download_navigation [Byte.x25; Byte.x50; Byte.x44; Byte.x46]))
  = Return
      (None,
       Some {| Download.body := [Byte.x25; Byte.x50; Byte.x44; Byte.x46];
               Download.url := "http://example.com/report.pdf";
               Download.suggested_filename := "report.pdf";
               Download.exception := None;
               Download.response_status := 200;
               Download.headers := [] |}).
Proof.
  refine (proj1 (proj2 (proj2
            (proj2 (download_signal_arbitration example_config ∅ example_page
                      (example_download_navigation
                         [Byte.x25; Byte.x50; Byte.x44; Byte.x46])
                      ∅ download_is_starting eq_refl eq_refl)
               eq_refl _ _ eq_refl)
            _ _ _ eq_refl)) _).
  - cbn. lia.
  - cbn. discriminate.
Defined.

(** The claim as it is written fails for a download that completes
    successfully with an empty file: the arbiter returns neither a response
    nor a download, and the fetch yields a document result instead of a
    download result. *)
Lemma empty_download_is_not_returned :
  snd (_get_response_and_download example_config ∅ example_page
         (example_download_navigation []))
  = Return (None, None) /\
  snd (_download_request encode_body_utf8
         [example_attempt (example_download_navigation [])] (example_world ∅))
  = Return (document_response "http://example.com/" 200 []
              (String.list_byte_of_string "<html></html>") "utf-8" None).
Proof. split; reflexivity. Qed.

Section Pool.

Variable self : Handler.t.

Lemma new_page_listeners self0 context_name :
  Page.listeners (new_page_object self0 context_name) =
  [("close", close_page_callback context_name);
   ("crash", close_page_callback context_name);
   ("request", _log_request context_name);
   ("response", _log_response context_name);
   ("request", _increment_request_stats);
   ("response", _increment_response_stats)].
Proof.
  unfold new_page_object.
  destruct (Config.navigation_timeout (Handler.config self0)); reflexivity.
Qed.

Lemma emit_close_or_crash self0 context_name h :
  emit "close" (new_page_object self0 context_name) h
  = run_close_page_callback context_name h /\
  emit "crash" (new_page_object self0 context_name) h
  = run_close_page_callback context_name h.
Proof. unfold emit. rewrite new_page_listeners. split; reflexivity. Qed.

Lemma close_page_callback_releases context_name h v :
  free_page_slots h context_name = Some v ->
  free_page_slots (run_close_page_callback context_name h) context_name = Some (v + 1).
Proof.
  unfold free_page_slots, run_close_page_callback.
  destruct (Handler.context_wrappers h !! context_name) as [wrapper|] eqn:Hw;
    [|discriminate].
  intros [= <-]. cbn [Handler.context_wrappers Handler.with_context_wrappers].
  rewrite lookup_insert_eq. reflexivity.
Qed.

Lemma close_page_callback_without_context context_name h :
  free_page_slots h context_name = None ->
  run_close_page_callback context_name h = h.
Proof.
  unfold free_page_slots, run_close_page_callback.
  destruct (Handler.context_wrappers h !! context_name); [discriminate|reflexivity].
Qed.

(** C4 (amended).  For a page created by [_create_page], each of the close
    and the crash notification releases one slot of the page semaphore of
    its context when it fires while the context is in the pool, and none
    otherwise.  The release is not guarded against the other notification:
    when both fire for the same page, in either order, two slots are
    released. *)
Theorem close_and_crash_each_release self0 context_name :
  let page := new_page_object self0 context_name in
  (forall v,
      free_page_slots self context_name = Some v ->
      free_page_slots (emit "close" page self) context_name = Some (v + 1) /\
      free_page_slots (emit "crash" page self) context_name = Some (v + 1) /\
      free_page_slots (emit "crash" page (emit "close" page self)) context_name
      = Some (v + 2) /\
      free_page_slots (emit "close" page (emit "crash" page self)) context_name
      = Some (v + 2)) /\
  (free_page_slots self context_name = None ->
   emit "close" page self = self /\ emit "crash" page self = self).
Proof.
  cbv zeta. split.
  - intros v Hv.
    pose proof (close_page_callback_releases _ _ _ Hv) as Hone.
    pose proof (close_page_callback_releases _ _ _ Hone) as Htwo.
    replace (v + 1 + 1) with (v + 2) in Htwo by lia.
    rewrite !(proj1 (emit_close_or_crash self0 context_name _)).
    rewrite !(proj2 (emit_close_or_crash self0 context_name _)).
    auto.
  - intros Hnone.
    rewrite (proj1 (emit_close_or_crash self0 context_name _)).
    rewrite (proj2 (emit_close_or_crash self0 context_name _)).
    split; apply close_page_callback_without_context, Hnone.
Qed.

(** C5.  With creation options that hold a truthy profile-storage key,
    [_create_browser_context] never returns a wrapper: [context] is bound
    to the value of [_maybe_launch_browser], which is [None], and
    [context.on] raises.  No wrapper is added to the pool. *)
Theorem persistent_context_is_never_returned name options launch new_context :
  asks_for_persistent_context options = true ->
  let result :=
    _create_browser_context self name (Some (MDict options)) launch new_context in
  (snd result = Pending \/ exists ex, snd result = Raise ex) /\
  Handler.context_wrappers (fst result) = Handler.context_wrappers self /\
  (Handler.context_semaphore self = None -> launch = Return tt ->
   snd result = Raise (AttributeError "'NoneType' object has no attribute 'on'")).
Proof.
  intros Hpersistent. cbv zeta. unfold _create_browser_context.
  destruct (Handler.context_semaphore self) as [s|] eqn:Hs.
  - destruct (Semaphore.acquire s) as [s'|]; [|split; [left; reflexivity|split; [reflexivity|discriminate]]].
    cbn [kwargs_or_empty]. rewrite Hpersistent. unfold _maybe_launch_browser.
    cbn [Handler.browser Handler.with_context_semaphore].
    destruct (Handler.browser self);
      [split; [right; eexists; reflexivity|split; [reflexivity|discriminate]]|].
    destruct launch as [[]|ex|];
      (split; [first [right; eexists; reflexivity|left; reflexivity]
              |split; [reflexivity|discriminate]]).
  - cbn [kwargs_or_empty]. rewrite Hpersistent. unfold _maybe_launch_browser.
    destruct (Handler.browser self);
      [split; [right; eexists; reflexivity|split; [reflexivity|reflexivity]]|].
    destruct launch as [[]|ex|];
      (split; [first [right; eexists; reflexivity|left; reflexivity]
              |split; [reflexivity|intros _ Hl; first [reflexivity|discriminate Hl]]]).
Qed.

End Pool.

Lemma close_and_crash_each_release_witness :
  free_page_slots (emit "close" example_page (handler example_world_with_page))
    "default" = Some 1 /\
  free_page_slots (emit "crash" example_page (handler example_world_with_page))
    "default" = Some 1 /\
  free_page_slots
    (emit "crash" example_page
       (emit "close" example_page (handler example_world_with_page)))
    "default" = Some 2 /\
  free_page_slots
    (emit "close" example_page
       (emit "crash" example_page (handler example_world_with_page)))
    "default" = Some 2.
Proof.
  exact (proj1 (close_and_crash_each_release (handler example_world_with_page)
                  example_handler "default") 0 eq_refl).
Defined.

(** The claim as it is written fails for a page that crashes and is then
    closed: the one slot acquired for it (the semaphore has one slot, none is
    free while the page lives) is released twice, which leaves two free
    slots. *)
Lemma crash_then_close_releases_two_slots :
  Config.max_pages_per_context example_config = 1 /\
  pages example_world_with_page !! 7%nat = Some example_page /\
  free_page_slots (handler example_world_with_page) "default" = Some 0 /\
  free_page_slots (handler (page_crash 7 example_world_with_page)) "default"
  = Some 1 /\
  free_page_slots
    (handler (fst (page_close 7 (Return tt) (page_crash 7 example_world_with_page))))
    "default" = Some 2.
Proof. repeat split; vm_compute; reflexivity. Qed.

Lemma persistent_context_is_never_returned_witness :
  let result :=
    _create_browser_context example_handler "persistent"
      (Some (MDict [("user_data_dir", MStr "/tmp/profile")])) (Return tt)
      (Return 1%nat) in
  (snd result = Pending \/ exists ex, snd result = Raise ex) /\
  Handler.context_wrappers (fst result) = Handler.context_wrappers example_handler /\
  (Handler.context_semaphore example_handler = None -> Return tt = Return tt ->
   snd result = Raise (AttributeError "'NoneType' object has no attribute 'on'")).
Proof.
  exact (persistent_context_is_never_returned example_handler "persistent"
           [("user_data_dir", MStr "/tmp/profile")] (Return tt) (Return 1%nat)
           eq_refl).
Defined.

(** The failing input of C5, evaluated: the browser is launched in
    persistent mode and the call then raises. *)
Example persistent_context_raises :
  _create_browser_context example_handler "persistent"
    (Some (MDict [("user_data_dir", MStr "/tmp/profile")])) (Return tt) (Return 1%nat)
  = (Handler.with_browser
       (Some {| Browser.launch_options := []; Browser.persistent_context := true |})
       example_handler,
     Raise (AttributeError "'NoneType' object has no attribute 'on'")).
Proof. reflexivity. Qed.

Lemma bind_run {A B : Type} (c : coroutine A) (k : A -> coroutine B) (w : World) :
  (c ≫= k) w =
  match c w with
  | (w', Return a) => k a w'
  | (w', Raise ex) => (w', Raise ex)
  | (w', Pending) => (w', Pending)
  end.
Proof. reflexivity. Qed.

Lemma pop_url_after_insert (m m' : gmap string meta_value) key v :
  key ≠ "camoufox_page_goto_kwargs" ->
  pop_url_of_goto_kwargs m = inr m' ->
  exists m'', pop_url_of_goto_kwargs (<[key := v]> m) = inr m''.
Proof.
  intros Hkey. unfold pop_url_of_goto_kwargs.
  rewrite lookup_insert_ne by exact Hkey.
  destruct (m !! "camoufox_page_goto_kwargs") as [[]|]; cbn;
    repeat case_match; try discriminate; eauto.
Qed.

Lemma page_close_keeps_url page_id answer w page :
  pages w !! page_id = Some page ->
  exists page',
    pages (fst (page_close page_id answer w)) !! page_id = Some page' /\
    Page.url page' = Page.url page.
Proof.
  intros Hpage. unfold page_close. destruct answer as [[]| |]; eauto.
  rewrite Hpage. destruct (Page.is_closed page); eauto.
  cbn. rewrite lookup_alter_eq, Hpage. cbn. eauto.
Qed.

Section PipelineFacts.

Variable _encode_body : Headers -> string -> list Byte.byte * string.

Lemma assemble_nothing page_id answers w page body_str :
  pages w !! page_id = Some page ->
  _apply_page_methods (Attempt.page_methods answers) = Return tt ->
  Attempt.page_content answers = Return body_str ->
  truthy (meta_get w "camoufox_include_page") = true \/ Attempt.close answers = Return tt ->
  exists w' page',
    assemble_response _encode_body page_id answers (None, None) w =
    (w', Return (document_response (Page.url page') 200 []
                   (fst (_encode_body [] body_str)) (snd (_encode_body [] body_str))
                   None)) /\
    pages w' !! page_id = Some page' /\ Page.url page' = Page.url page.
Proof.
  intros Hpage Hmethods Hcontent Hclose.
  unfold assemble_response. cbn [fst snd].
  rewrite !bind_run. unfold ret, await. rewrite !bind_run.
  rewrite Hmethods, Hcontent. rewrite !bind_run. unfold step.
  destruct (truthy (meta_get w "camoufox_include_page")) eqn:Hflag.
  - rewrite Hpage. eauto.
  - destruct Hclose as [|Hclose]; [discriminate|]. rewrite Hclose.
    destruct (page_close_keeps_url page_id (Return ()) w page Hpage) as (page' & Hp' & Hu).
    destruct (page_close page_id (Return ()) w) as [w' r] eqn:Hpc.
    assert (r = Return tt) as ->.
    { unfold page_close in Hpc. rewrite Hpage in Hpc.
      destruct (Page.is_closed page); injection Hpc as _ <-; reflexivity. }
    cbn [fst] in Hp'. rewrite Hp'. eauto.
Qed.

Lemma arbiter_returns_nothing cfg meta meta' page nav :
  pop_url_of_goto_kwargs meta = inr meta' ->
  Navigation.goto_result nav = Return None ->
  present (download (fold_left deliver (Navigation.events_during_goto nav) new_watch))
  = None ->
  exists page',
    _get_response_and_download cfg meta page nav = (meta', page', Return (None, None)).
Proof.
  intros Hk Hg Hp. unfold _get_response_and_download. rewrite Hk, Hg, Hp. eauto.
Qed.

Lemma pop_url_other_keys (m m' : gmap string meta_value) key :
  pop_url_of_goto_kwargs m = inr m' ->
  key ≠ "camoufox_page_goto_kwargs" ->
  m' !! key = m !! key.
Proof.
  intros Hpop Hkey. unfold pop_url_of_goto_kwargs in Hpop.
  repeat case_match; try discriminate; injection Hpop as <-;
    try reflexivity; apply lookup_insert_ne; congruence.
Qed.

(** C10.  When the navigation returns no response and no download is
    present, and the steps that follow succeed (the page methods, reading
    the page content, and closing the page unless it is retained), the fetch
    returns a document result whose status is 200, whose headers are empty
    and whose url is the url of the page. *)
Theorem no_response_gives_status_200 page_id answers w page meta' body_str :
  pages w !! page_id = Some page ->
  pop_url_of_goto_kwargs (Request.meta (request w)) = inr meta' ->
  Navigation.goto_result (Attempt.navigation answers) = Return None ->
  present (download (fold_left deliver
                       (Navigation.events_during_goto (Attempt.navigation answers))
                       new_watch)) = None ->
  _apply_page_methods (Attempt.page_methods answers) = Return tt ->
  Attempt.page_content answers = Return body_str ->
  truthy (meta_get w "camoufox_include_page") = true \/ Attempt.close answers = Return tt ->
  exists w' page',
    _download_request_with_page _encode_body page_id answers w =
    (w', Return (document_response (Page.url page') 200 []
                   (fst (_encode_body [] body_str)) (snd (_encode_body [] body_str))
                   None)) /\
    pages w' !! page_id = Some page'.
Proof.
  intros Hpage Hkwargs Hgoto Hnone Hmethods Hcontent Hclose.
  unfold _download_request_with_page. rewrite bind_run.
  set (w0 := fst (remember_page page_id w)).
  assert (Hw0 : remember_page page_id w = (w0, Return tt)).
  { unfold w0, remember_page, step. destruct (truthy _); reflexivity. }
  assert (Hpages0 : pages w0 = pages w).
  { unfold w0, remember_page, step. destruct (truthy _); reflexivity. }
  assert (Hflag0 : meta_get w0 "camoufox_include_page" = meta_get w "camoufox_include_page").
  { unfold w0, remember_page, step. destruct (truthy _); [|reflexivity].
    unfold meta_get, meta_set. cbn. apply lookup_insert_ne. discriminate. }
  assert (Hkwargs0 : exists m, pop_url_of_goto_kwargs (Request.meta (request w0)) = inr m).
  { unfold w0, remember_page, step. destruct (truthy _); [|eauto].
    cbn. eapply pop_url_after_insert; [discriminate|exact Hkwargs]. }
  destruct Hkwargs0 as [meta0 Hkwargs0].
  rewrite Hw0, bind_run. unfold get_response_and_download.
  rewrite Hpages0, Hpage.
  destruct (arbiter_returns_nothing (Handler.config (handler w0))
              (Request.meta (request w0)) meta0 page (Attempt.navigation answers)
              Hkwargs0 Hgoto Hnone) as [page1 Harbiter].
  rewrite Harbiter.
  set (w1 := with_pages (<[page_id:=page1]> (pages w)) (with_request_meta meta0 w0)).
  assert (Hpage1 : pages w1 !! page_id = Some page1) by apply lookup_insert_eq.
  assert (Hclose1 : truthy (meta_get w1 "camoufox_include_page") = true
                    \/ Attempt.close answers = Return tt).
  { destruct Hclose as [Hflag|Hc]; [left|right; exact Hc].
    unfold w1, meta_get. cbn.
    rewrite (pop_url_other_keys _ _ "camoufox_include_page" Hkwargs0) by discriminate.
    fold (meta_get w0 "camoufox_include_page"). rewrite Hflag0. exact Hflag. }
  destruct (assemble_nothing page_id answers w1 page1 body_str
              Hpage1 Hmethods Hcontent Hclose1) as (w' & page' & Hassemble & Hpage' & _).
  exists w', page'. split; assumption.
Qed.


Lemma keeps_config_bind {A B : Type} (c : coroutine A) (k : A -> coroutine B) :
  keeps_config c -> (forall a, keeps_config (k a)) -> keeps_config (c ≫= k).
Proof.
  intros Hc Hk w. rewrite bind_run. specialize (Hc w).
  destruct (c w) as [w' [a| |]]; cbn [fst] in *; [|assumption..].
  rewrite Hk. exact Hc.
Qed.

Lemma keeps_config_ret {A : Type} (a : A) : keeps_config (ret a).
Proof. intros w. reflexivity. Qed.

Lemma keeps_config_raise {A : Type} ex : keeps_config (@raise A ex).
Proof. intros w. reflexivity. Qed.

Lemma keeps_config_await {A : Type} (answer : outcome A) : keeps_config (await answer).
Proof. intros w. reflexivity. Qed.

Lemma keeps_config_modify (f : World -> World) :
  (forall w, Handler.config (handler (f w)) = Handler.config (handler w)) ->
  keeps_config (modify f).
Proof. intros Hf w. apply Hf. Qed.

Lemma create_browser_context_keeps_config self name context_kwargs launch new_context :
  Handler.config
    (fst (_create_browser_context self name context_kwargs launch new_context))
  = Handler.config self.
Proof.
  unfold _create_browser_context, _maybe_launch_browser.
  repeat (case_match; simplify_eq; cbn; try reflexivity).
Qed.

Lemma emit_keeps_config event page self :
  Handler.config (emit event page self) = Handler.config self.
Proof.
  unfold emit. generalize (filter (fun l => fst l = event) (Page.listeners page)).
  intros l. revert self. induction l as [|x l IH]; intros self; [reflexivity|].
  cbn [fold_left]. rewrite IH. unfold notify, run_close_page_callback.
  repeat case_match; reflexivity.
Qed.

Lemma page_close_keeps_config page_id answer : keeps_config (page_close page_id answer).
Proof.
  intros w. unfold page_close. repeat case_match; try reflexivity.
  cbn. apply emit_keeps_config.
Qed.


Lemma setdefault_context_name_keeps_config : keeps_config setdefault_context_name.
Proof. intros w. unfold setdefault_context_name. repeat case_match; reflexivity. Qed.

Lemma create_page_keeps_config answers : keeps_config (_create_page answers).
Proof.
  unfold _create_page.
  apply keeps_config_bind; [apply setdefault_context_name_keeps_config|intros name].
  apply keeps_config_bind; [|intros wrapper].
  { intros w. unfold step. case_match; [reflexivity|].
    pose proof (create_browser_context_keeps_config (handler w) name
                  (meta_get w "camoufox_context_kwargs") (Attempt.launch answers)
                  (Attempt.new_context answers)) as Hc.
    destruct (_create_browser_context _ _ _ _ _) as [self result]. exact Hc. }
  apply keeps_config_bind; [|intros _].
  { intros w. unfold step. case_match; reflexivity. }
  apply keeps_config_bind; [apply keeps_config_await|intros page_id].
  apply keeps_config_bind; [|intros _; apply keeps_config_ret].
  apply keeps_config_modify. reflexivity.
Qed.

Lemma prepare_page_keeps_config answers : keeps_config (prepare_page answers).
Proof.
  unfold prepare_page.
  apply keeps_config_bind; [|intros page_id].
  { intros w. unfold step. case_match; [reflexivity|apply create_page_keeps_config]. }
  apply keeps_config_bind; [apply setdefault_context_name_keeps_config|intros _].
  apply keeps_config_bind; [|intros _].
  { intros w. unfold _attach_page_event_handlers. repeat case_match; reflexivity. }
  apply keeps_config_bind; [|intros _].
  { unfold install_route.
    repeat (apply keeps_config_bind; [|intros _]);
      first [apply keeps_config_await|apply keeps_config_modify; reflexivity]. }
  apply keeps_config_bind; [|intros _; apply keeps_config_ret].
  intros w. unfold _maybe_execute_page_init_callback. repeat case_match; reflexivity.
Qed.

Lemma download_request_with_page_keeps_config page_id answers :
  keeps_config (_download_request_with_page _encode_body page_id answers).
Proof.
  unfold _download_request_with_page.
  apply keeps_config_bind; [|intros _].
  { intros w. unfold remember_page, step. case_match; reflexivity. }
  apply keeps_config_bind; [|intros found].
  { intros w. unfold get_response_and_download. case_match; [|reflexivity].
    destruct (_get_response_and_download _ _ _ _) as [[m p] r]. reflexivity. }
  unfold assemble_response.
  apply keeps_config_bind; [|intros headers].
  { case_match; [|apply keeps_config_ret].
    apply keeps_config_bind; [|intros _; apply keeps_config_ret].
    intros w. unfold step. destruct (_set_redirect_meta _ _); reflexivity. }
  apply keeps_config_bind; [apply keeps_config_await|intros _].
  apply keeps_config_bind; [apply keeps_config_await|intros body_str].
  apply keeps_config_bind; [|intros ip].
  { case_match; [|apply keeps_config_ret].
    apply keeps_config_bind; [apply keeps_config_modify; reflexivity|intros _].
    apply keeps_config_ret. }
  apply keeps_config_bind; [|intros _].
  { repeat case_match; first [apply keeps_config_raise|apply keeps_config_ret]. }
  apply keeps_config_bind; [|intros _].
  { intros w. unfold step. case_match; [reflexivity|apply page_close_keeps_config]. }
  case_match.
  - apply keeps_config_bind; [apply keeps_config_modify; reflexivity|intros _].
    apply keeps_config_ret.
  - case_match; [|apply keeps_config_raise]. intros w. reflexivity.
Qed.

Lemma download_request_with_retry_keeps_config answers :
  keeps_config (_download_request_with_retry _encode_body answers).
Proof.
  unfold _download_request_with_retry.
  apply keeps_config_bind; [apply prepare_page_keeps_config|intros page_id].
  intros w. unfold step.
  pose proof (download_request_with_page_keeps_config page_id answers w) as Hw.
  destruct (_download_request_with_page _ _ _ w) as [w1 [r|ex|]]; cbn [fst] in *;
    try assumption.
  case_match; [|assumption].
  pose proof (page_close_keeps_config page_id (Attempt.close_after_failure answers) w1)
    as Hc.
  destruct (page_close _ _ w1) as [w2 [[]|ex'|]]; cbn [fst] in *; congruence.
Qed.


(** The retry loop after [messages] runs that each raised a target-closed
    error: what the next run ends with decides the fetch. *)
Lemma retry_loop_spec messages :
  forall attempts w counter next rest,
    pipeline_runs _encode_body attempts w
    = ((fun m => Raise (TargetClosedError m)) <$> messages) ++ next :: rest ->
    counter + Z.of_nat (length messages)
    <= Config.target_closed_max_retries (Handler.config (handler w)) ->
    snd (retry_loop _encode_body counter attempts w) =
    match next with
    | Raise ex =>
        if is_TargetClosedError ex
           && (counter + Z.of_nat (length messages) + 1
               <=? Config.target_closed_max_retries (Handler.config (handler w)))
        then snd (retry_loop _encode_body (counter + Z.of_nat (length messages) + 1)
                    (drop (S (length messages)) attempts)
                    (fold_left (fun w answers =>
                                  fst (_download_request_with_retry _encode_body answers w))
                       (take (S (length messages)) attempts) w))
        else Raise ex
    | finished => finished
    end.
Proof.
  induction messages as [|m messages IH]; intros attempts w counter next rest Hruns Hle.
  - destruct attempts as [|answers attempts]; [discriminate|].
    cbn [pipeline_runs fmap list_fmap app] in Hruns.
    cbn [retry_loop length Z.of_nat take drop fold_left].
    destruct (_download_request_with_retry _encode_body answers w) as [w1 r] eqn:Hrun.
    injection Hruns as -> _. rewrite Z.add_0_r. cbn [fst].
    pose proof (download_request_with_retry_keeps_config answers w) as Hcfg.
    rewrite Hrun in Hcfg. cbn [fst] in Hcfg.
    destruct next as [r|ex|]; [reflexivity| |reflexivity].
    destruct (is_TargetClosedError ex); [|reflexivity]. cbn [andb].
    rewrite Hcfg. rewrite drop_0.
    destruct (counter + 1 <=? _) eqn:Hb.
    + apply Z.leb_le in Hb. destruct (counter + 1 >? _) eqn:Hg; [|reflexivity].
      apply Z.gtb_lt in Hg. lia.
    + apply Z.leb_gt in Hb. destruct (counter + 1 >? _) eqn:Hg; [reflexivity|].
      rewrite Z.gtb_ltb in Hg. apply Z.ltb_ge in Hg. lia.
  - destruct attempts as [|answers attempts]; [discriminate|].
    cbn [pipeline_runs fmap list_fmap app] in Hruns.
    cbn [retry_loop].
    destruct (_download_request_with_retry _encode_body answers w) as [w1 r] eqn:Hrun.
    injection Hruns as -> Hruns. cbn [is_TargetClosedError].
    pose proof (download_request_with_retry_keeps_config answers w) as Hcfg.
    rewrite Hrun in Hcfg. cbn [fst] in Hcfg.
    cbn [length] in Hle. rewrite Nat2Z.inj_succ in Hle.
    rewrite Hcfg.
    destruct (counter + 1 >? _) eqn:Hg; [apply Z.gtb_lt in Hg; lia|].
    rewrite (IH attempts w1 (counter + 1) next rest Hruns) by (rewrite Hcfg; lia).
    cbn [length take drop fold_left]. rewrite Hrun. cbn [fst].
    rewrite Nat2Z.inj_succ, Hcfg.
    replace (counter + 1 + Z.of_nat (length messages) + 1)
      with (counter + Z.succ (Z.of_nat (length messages)) + 1) by lia.
    reflexivity.
Qed.


Lemma page_close_closes page_id w :
  page_is_closed (fst (page_close page_id (Return tt) w)) page_id = true.
Proof.
  unfold page_close, page_is_closed.
  destruct (pages w !! page_id) as [page|] eqn:Hpage; cbn [fst]; [|rewrite Hpage; reflexivity].
  destruct (Page.is_closed page) eqn:Hclosed; cbn [fst]; [rewrite Hpage; exact Hclosed|].
  cbn. rewrite lookup_alter_eq, Hpage. reflexivity.
Qed.

(** C7 (amended).  A run of the pipeline that fails raises one error.  When
    the failure arises in [_download_request_with_page], the page is closed
    before the error propagates, unless the page is retained on request or
    is closed already, in which cases nothing is done to it; when closing
    the page fails, the error of the close is the one raised.  A failure
    before that (creating the page, subscribing the caller's listeners,
    installing the route) propagates without the page being closed. *)
Theorem failed_attempt_closes_its_page answers w w' ex :
  _download_request_with_retry _encode_body answers w = (w', Raise ex) ->
  prepare_page answers w = (w', Raise ex) \/
  exists page_id w0 w1 ex0,
    prepare_page answers w = (w0, Return page_id) /\
    _download_request_with_page _encode_body page_id answers w0 = (w1, Raise ex0) /\
    (((truthy (meta_get w1 "camoufox_include_page") = true
       \/ page_is_closed w1 page_id = true) /\ w' = w1 /\ ex = ex0)
     \/ (truthy (meta_get w1 "camoufox_include_page") = false /\
         page_is_closed w1 page_id = false /\
         ((Attempt.close_after_failure answers = Return tt /\
           page_is_closed w' page_id = true /\ ex = ex0)
          \/ (Attempt.close_after_failure answers = Raise ex /\ w' = w1)))).
Proof.
  unfold _download_request_with_retry. rewrite bind_run.
  destruct (prepare_page answers w) as [w0 [page_id|ex0|]] eqn:Hprepare;
    [|intros [= <- <-]; left; reflexivity|discriminate].
  unfold step.
  destruct (_download_request_with_page _encode_body page_id answers w0)
    as [w1 [r|ex0|]] eqn:Hpage; [discriminate| |discriminate].
  intros Hrun. right. exists page_id, w0, w1, ex0. split; [reflexivity|].
  split; [exact Hpage|].
  destruct (truthy (meta_get w1 "camoufox_include_page")) eqn:Hflag;
    cbn [negb andb] in Hrun.
  { injection Hrun as <- <-. left. auto. }
  destruct (page_is_closed w1 page_id) eqn:Hclosed; cbn [negb] in Hrun.
  { injection Hrun as <- <-. left. auto. }
  right. split; [reflexivity|]. split; [reflexivity|].
  pose proof (page_close_closes page_id w1) as Hnow.
  destruct (Attempt.close_after_failure answers) as [[]|ex'|] eqn:Hclose.
  - destruct (page_close page_id (Return tt) w1) as [w2 r] eqn:Hpc.
    assert (r = Return tt) as ->.
    { unfold page_close in Hpc. repeat case_match; inversion Hpc; reflexivity. }
    injection Hrun as <- <-. left. auto.
  - cbn in Hrun. injection Hrun as <- <-. right. auto.
  - cbn in Hrun. discriminate.
Qed.


(** C2.  While the runs of the pipeline raise a target-closed error the
    pipeline is run again, up to the configured bound, which is 3 unless
    configured: after [R] such errors with [R] within the bound, the fetch
    returns what run [R + 1] returns; after as many of them as the bound, one
    more is raised to the caller; an error of another class ends the fetch
    in the run that raises it. *)
Theorem target_closed_is_retried_up_to_the_bound attempts w messages next rest :
  pipeline_runs _encode_body attempts w
  = ((fun m => Raise (TargetClosedError m)) <$> messages) ++ next :: rest ->
  let bound := Config.target_closed_max_retries (Handler.config (handler w)) in
  let result := snd (_download_request _encode_body attempts w) in
  (forall response,
      Z.of_nat (length messages) <= bound -> next = Return response ->
      result = Return response) /\
  (forall last,
      Z.of_nat (length messages) = bound -> next = Raise (TargetClosedError last) ->
      result = Raise (TargetClosedError last)) /\
  (forall ex,
      Z.of_nat (length messages) <= bound -> is_TargetClosedError ex = false ->
      next = Raise ex -> result = Raise ex) /\
  (forall settings,
      Config.target_closed_max_retries (Config.from_settings settings) = 3).
Proof.
  intros Hruns. cbv zeta. unfold _download_request.
  repeat split.
  - intros response Hle ->. rewrite (retry_loop_spec _ _ _ _ _ _ Hruns) by lia.
    reflexivity.
  - intros last Hlen ->. rewrite (retry_loop_spec _ _ _ _ _ _ Hruns) by lia.
    cbn [is_TargetClosedError andb]. rewrite Hlen.
    destruct (0 + _ + 1 <=? _) eqn:Hb; [apply Z.leb_le in Hb; lia|reflexivity].
  - intros ex Hle Hclass ->. rewrite (retry_loop_spec _ _ _ _ _ _ Hruns) by lia.
    rewrite Hclass. reflexivity.
  - intros settings. unfold Config.from_settings. case_match; reflexivity.
Qed.

End PipelineFacts.

Lemma target_closed_is_retried_up_to_the_bound_witness :
  snd (_download_request encode_body_utf8
         [target_closed_attempt 7; target_closed_attempt 8; target_closed_attempt 9;
          quiet_attempt 10]
         (example_world ∅))
  = Return example_document /\
  snd (_download_request encode_body_utf8
         [target_closed_attempt 7; target_closed_attempt 8; target_closed_attempt 9;
          target_closed_attempt 10; quiet_attempt 11]
         (example_world ∅))
  = Raise (TargetClosedError target_closed) /\
  snd (_download_request encode_body_utf8
         [target_closed_attempt 7; refused_attempt; quiet_attempt 11]
         (example_world ∅))
  = Raise (PlaywrightError "NS_ERROR_CONNECTION_REFUSED").
Proof.
  split; [|split].
  - refine (proj1 (target_closed_is_retried_up_to_the_bound encode_body_utf8
                     [target_closed_attempt 7; target_closed_attempt 8;
                      target_closed_attempt 9; quiet_attempt 10]
                     (example_world ∅)
                     [target_closed; target_closed; target_closed]
                     (Return example_document) [] eq_refl)
              example_document _ eq_refl).
    vm_compute. discriminate.
  - refine (proj1 (proj2 (target_closed_is_retried_up_to_the_bound encode_body_utf8
                     [target_closed_attempt 7; target_closed_attempt 8;
                      target_closed_attempt 9; target_closed_attempt 10;
                      quiet_attempt 11]
                     (example_world ∅)
                     [target_closed; target_closed; target_closed]
                     (Raise (TargetClosedError target_closed))
                     [Return example_document] eq_refl))
              target_closed eq_refl eq_refl).
  - refine (proj1 (proj2 (proj2 (target_closed_is_retried_up_to_the_bound
                     encode_body_utf8
                     [target_closed_attempt 7; refused_attempt; quiet_attempt 11]
                     (example_world ∅)
                     [target_closed]
                     (Raise (PlaywrightError "NS_ERROR_CONNECTION_REFUSED"))
                     [Return example_document] eq_refl)))
              (PlaywrightError "NS_ERROR_CONNECTION_REFUSED") _ eq_refl eq_refl).
    vm_compute. discriminate.
Defined.

Lemma no_response_gives_status_200_witness :
  exists w' page',
    _download_request_with_page encode_body_utf8 7 (quiet_attempt 7)
      example_world_with_page
    = (w', Return (document_response (Page.url page') 200 []
                     (fst (encode_body_utf8 [] "<html></html>"))
                     (snd (encode_body_utf8 [] "<html></html>")) None)) /\
    pages w' !! 7%nat = Some page'.
Proof.
  refine (no_response_gives_status_200 encode_body_utf8 7 (quiet_attempt 7)
            example_world_with_page example_page _ "<html></html>"
            eq_refl eq_refl eq_refl eq_refl eq_refl eq_refl (or_intror eq_refl)).
Defined.

Lemma failed_attempt_closes_its_page_witness :
  prepare_page refused_attempt (example_world ∅)
  = (fst (_download_request_with_retry encode_body_utf8 refused_attempt
            (example_world ∅)),
     Raise (PlaywrightError "NS_ERROR_CONNECTION_REFUSED")) \/
  exists page_id w0 w1 ex0,
    prepare_page refused_attempt (example_world ∅) = (w0, Return page_id) /\
    _download_request_with_page encode_body_utf8 page_id refused_attempt w0
    = (w1, Raise ex0) /\
    (((truthy (meta_get w1 "camoufox_include_page") = true
       \/ page_is_closed w1 page_id = true) /\
      fst (_download_request_with_retry encode_body_utf8 refused_attempt
             (example_world ∅)) = w1 /\
      PlaywrightError "NS_ERROR_CONNECTION_REFUSED" = ex0)
     \/ (truthy (meta_get w1 "camoufox_include_page") = false /\
         page_is_closed w1 page_id = false /\
         ((Attempt.close_after_failure refused_attempt = Return tt /\
           page_is_closed
             (fst (_download_request_with_retry encode_body_utf8 refused_attempt
                     (example_world ∅))) page_id = true /\
           PlaywrightError "NS_ERROR_CONNECTION_REFUSED" = ex0)
          \/ (Attempt.close_after_failure refused_attempt
              = Raise (PlaywrightError "NS_ERROR_CONNECTION_REFUSED") /\
              fst (_download_request_with_retry encode_body_utf8 refused_attempt
                     (example_world ∅)) = w1)))).
Proof.
  exact (failed_attempt_closes_its_page encode_body_utf8 refused_attempt
           (example_world ∅)
           (fst (_download_request_with_retry encode_body_utf8 refused_attempt
                   (example_world ∅)))
           (PlaywrightError "NS_ERROR_CONNECTION_REFUSED") eq_refl).
Defined.

(** The claim as it is written fails for a fetch whose page crashes before
    the route is installed: the fetch raises, the page was not retained on
    request and is not closed, and it is left open. *)
Lemma failure_before_navigation_leaves_page_open :
  snd (_download_request encode_body_utf8 [crashed_before_route_attempt]
         (example_world ∅))
  = Raise (PlaywrightError "Page crashed") /\
  truthy (meta_get
            (fst (_download_request encode_body_utf8 [crashed_before_route_attempt]
                    (example_world ∅)))
            "camoufox_include_page") = false /\
  Page.is_closed
    <$> pages (fst (_download_request encode_body_utf8 [crashed_before_route_attempt]
                      (example_world ∅))) !! 7%nat
  = Some false.
Proof. repeat split; vm_compute; reflexivity. Qed.
